(** * Home Assistant Controls: a shallow embedding of [home_assistant.py]

    The module is one class, [Tools], with six operations.  Each operation
    narrates its progress through a caller-supplied callback, performs one
    HTTP request, reshapes the decoded JSON and, for the two discovery
    operations, writes the entity cache.  Every operation is wrapped in
    [try: ... except Exception as e: ...].

    Modelling choices
    - Python values decoded from JSON are the inductive [pyval]; a [dict] is
      an association list in insertion order, read with [dict_get] and
      written with [dict_set] (replace in place, else append).
    - A raised exception is a value of [result].  An [exn] is an instance
      of Python's [Exception]; that is all the HTTP layer and the
      operations on values raise ([outcome]).  The callback is awaited, so
      it may also raise an exception that is not an [Exception] (a
      cancellation): a method of the object ends in a [result] over
      [raised], and [except Exception] catches the [exn] only.
    - Text built by an f-string is kept as the list of its fragments
      ([text]): literal pieces, [str(v)] of a value and [json.dumps(v)] of a
      value stay symbolic, so that no formatting routine has to be trusted.
    - A Python [str] is the [string] of its UTF-8 bytes; iterating it
      walks its code points.
    - The object state, the events handed to the callback and the requests
      handed to the HTTP layer are threaded through a state-and-exception
      monad [M]; state changes made before a [raise] survive it, as in
      Python. *)

From Stdlib Require Import String Ascii List ZArith Bool Lia Permutation.
Import ListNotations.
Local Open Scope string_scope.
Local Open Scope list_scope.

Set Implicit Arguments.
Set Warnings "-register-all".

(** ** Python values *)

Inductive pyval : Type :=
| PNone
| PBool (b : bool)
| PInt (n : Z)
| PFloat (repr : string)          (* a float, carried by its [repr] *)
| PStr (s : string)
| PList (l : list pyval)
| PDict (d : list (string * pyval)).

(** The name Python prints for the type of a value. *)
Definition type_name (v : pyval) : string :=
  match v with
  | PNone => "NoneType"
  | PBool _ => "bool"
  | PInt _ => "int"
  | PFloat _ => "float"
  | PStr _ => "str"
  | PList _ => "list"
  | PDict _ => "dict"
  end.

(** ** Exceptions and the pure exception monad *)

Inductive exn_class : Type :=
| KeyError | TypeError | AttributeError | IndexError
| JSONDecodeError | RequestException | OtherException.

Record exn : Type := mkExn { exn_kind : exn_class; exn_str : string }.

(** Exceptions that are not instances of [Exception]; an
    [except Exception] clause lets them through. *)
Inductive base_class : Type :=
| CancelledError | KeyboardInterrupt | SystemExit | GeneratorExit.

Record base_exn : Type := mkBase { base_kind : base_class; base_str : string }.

(** Whatever can be raised: an [Exception] or not.  An [exn] is read as a
    [raised] where one is expected. *)
Inductive raised : Type :=
| AnException (e : exn)
| ABaseException (b : base_exn).
Coercion AnException : exn >-> raised.
#[local] Arguments Some {A} & a.

Inductive result (E A : Type) : Type :=
| Ret (a : A)
| Raise (e : E).
Arguments Ret {E A} a.
Arguments Raise {E A} e.

(** The result of code that raises instances of [Exception] only. *)
Abbreviation outcome := (result exn).

Definition obind {A B} (m : outcome A) (k : A -> outcome B) : outcome B :=
  match m with
  | Ret a => k a
  | Raise e => Raise e
  end.

Declare Scope outcome_scope.
Delimit Scope outcome_scope with out.
Notation "x <- m ;; k" := (obind m (fun x => k))
  (at level 61, m at next level, right associativity) : outcome_scope.

(** ** Strings *)

Definition nl : string := String (ascii_of_nat 10) EmptyString.
Definition dot : ascii := "."%char.

(** [s.split(".")]: the pieces of [s] between the dots, never empty. *)
Fixpoint split_dot (s : string) : list string :=
  match s with
  | EmptyString => [EmptyString]
  | String c rest =>
      if Ascii.eqb c dot then EmptyString :: split_dot rest
      else match split_dot rest with
           | p :: ps => String c p :: ps
           | [] => [String c EmptyString]
           end
  end.

(** [s.startswith(p)] *)
Definition startswith (s p : string) : bool := String.prefix p s.

Fixpoint has_dot (s : string) : bool :=
  match s with
  | EmptyString => false
  | String c rest => Ascii.eqb c dot || has_dot rest
  end.

(** ** Dictionaries: association lists in insertion order *)

Section Dict.
Variable V : Type.

Definition pydict := list (string * V).

Fixpoint dict_get (k : string) (d : pydict) : option V :=
  match d with
  | [] => None
  | (k', v) :: rest => if String.eqb k k' then Some v else dict_get k rest
  end.

(** [d[k] = v] *)
Fixpoint dict_set (k : string) (v : V) (d : pydict) : pydict :=
  match d with
  | [] => [(k, v)]
  | (k', v') :: rest =>
      if String.eqb k k' then (k', v) :: rest
      else (k', v') :: dict_set k v rest
  end.

Definition dict_has (k : string) (d : pydict) : bool :=
  match dict_get k d with Some _ => true | None => false end.

Definition dict_keys (d : pydict) : list string := map fst d.

(** [d.setdefault(k, dflt)]: the value under [k], inserted when absent. *)
Definition dict_setdefault (k : string) (dflt : V) (d : pydict) : V * pydict :=
  match dict_get k d with
  | Some v => (v, d)
  | None => (dflt, dict_set k dflt d)
  end.

(** [{**base, **extra}]: the items of [extra] assigned in order. *)
Definition dict_update (base extra : pydict) : pydict :=
  fold_left (fun acc kv => dict_set (fst kv) (snd kv) acc) extra base.
End Dict.

(** ** Operations of Python values used by the module *)

Local Open Scope outcome_scope.

(** [v[k]] for a string key [k]. *)
Definition subscript (v : pyval) (k : string) : outcome pyval :=
  match v with
  | PDict d =>
      match dict_get k d with
      | Some x => Ret x
      | None => Raise (mkExn KeyError ("'" ++ k ++ "'"))
      end
  | PList _ =>
      Raise (mkExn TypeError "list indices must be integers or slices, not str")
  | PStr _ =>
      Raise (mkExn TypeError "string indices must be integers, not 'str'")
  | _ =>
      Raise (mkExn TypeError ("'" ++ type_name v ++ "' object is not subscriptable"))
  end.

Definition no_attribute {A} (v : pyval) (name : string) : outcome A :=
  Raise (mkExn AttributeError
           ("'" ++ type_name v ++ "' object has no attribute '" ++ name ++ "'")).

(** [v.startswith(p)] *)
Definition startswith_method (v : pyval) (p : string) : outcome bool :=
  match v with
  | PStr s => Ret (startswith s p)
  | _ => no_attribute v "startswith"
  end.

(** [v.split(".")] *)
Definition split_method (v : pyval) : outcome (list string) :=
  match v with
  | PStr s => Ret (split_dot s)
  | _ => no_attribute v "split"
  end.

(** [l[0]] on a list of strings *)
Definition index0 (l : list string) : outcome string :=
  match l with
  | x :: _ => Ret x
  | [] => Raise (mkExn IndexError "list index out of range")
  end.

(** [v.get(k, dflt)] *)
Definition get_method (v : pyval) (k : string) (dflt : pyval) : outcome pyval :=
  match v with
  | PDict d =>
      Ret (match dict_get k d with Some x => x | None => dflt end)
  | _ => no_attribute v "get"
  end.

(** [v.items()] *)
Definition items_method (v : pyval) : outcome (list (string * pyval)) :=
  match v with
  | PDict d => Ret d
  | _ => no_attribute v "items"
  end.

(** The number of bytes of the UTF-8 sequence that starts with byte [c]. *)
Definition utf8_width (c : ascii) : nat :=
  let n := nat_of_ascii c in
  if Nat.ltb n 192 then 1 else if Nat.ltb n 224 then 2
  else if Nat.ltb n 240 then 3 else 4.

Definition flush (acc : string) : list pyval :=
  match acc with
  | EmptyString => []
  | _ => [PStr acc]
  end.

(** The characters of a [str], one string per code point: [acc] holds the
    bytes of the code point being read and [pending] counts the bytes it
    still lacks. *)
Fixpoint chars_from (pending : nat) (acc s : string) : list pyval :=
  match s with
  | EmptyString => flush acc
  | String c rest =>
      match pending with
      | O => flush acc ++ chars_from (utf8_width c - 1) (String c EmptyString) rest
      | S p => chars_from p (acc ++ String c EmptyString) rest
      end
  end.

Definition chars (s : string) : list pyval := chars_from 0 EmptyString s.

(** [iter(v)], as consumed by [for x in v]. *)
Definition iterate (v : pyval) : outcome (list pyval) :=
  match v with
  | PList l => Ret l
  | PDict d => Ret (map (fun kv => PStr (fst kv)) d)
  | PStr s => Ret (chars s)
  | _ => Raise (mkExn TypeError ("'" ++ type_name v ++ "' object is not iterable"))
  end.

(** [v == s] for a string [s]. *)
Definition eq_str (v : pyval) (s : string) : bool :=
  match v with
  | PStr s' => String.eqb s' s
  | _ => false
  end.

(** Truth value of a value, as tested by [if not v]. *)
Definition truthy (v : pyval) : bool :=
  match v with
  | PNone => false
  | PBool b => b
  | PInt n => negb (Z.eqb n 0)
  | PFloat r => negb (String.eqb r "0.0" || String.eqb r "-0.0")
  | PStr s => negb (String.eqb s "")
  | PList l => match l with [] => false | _ => true end
  | PDict d => match d with [] => false | _ => true end
  end.

(** ** Text, events and HTTP *)

(** A fragment of formatted text: a literal, [str(v)] or [json.dumps(v)]. *)
Inductive frag : Type :=
| Lit (s : string)
| StrOf (v : pyval)
| JsonOf (v : pyval).

Definition text := list frag.

Definition json_dumps (v : pyval) : text := [JsonOf v].

(** [json.loads] of a text produced by [json.dumps]. *)
Definition json_loads (t : text) : outcome pyval :=
  match t with
  | [JsonOf v] => Ret v
  | _ => Raise (mkExn JSONDecodeError "Expecting value: line 1 column 1 (char 0)")
  end.

(** What the module hands to [__event_emitter__]. *)
Inductive event : Type :=
| Status (description : text) (done : bool)
| Message (content : text).

(** [await __event_emitter__(ev)]: given the events already handed over
    during this call, the callback accepts [ev] or raises.  [None] is the
    default value of the parameter, which is not callable. *)
Definition sink := list event -> event -> option raised.
Definition emitter := option sink.

Record Response : Type := mkResponse {
  status_code : Z;
  response_text : string;
  response_json : outcome pyval      (* [response.json()] *)
}.

Inductive request : Type :=
| Get (url : string) (headers : pydict string)
| Post (url : string) (data : text) (headers : pydict string).

(** The [requests] library: one request, one response or an exception. *)
Definition http := request -> outcome Response.

(** ** The object and the monad of its methods *)

Record Entity : Type := mkEntity {
  entity_id : pyval;
  friendly_name : pyval;
  domain : string
}.

Record Valves : Type := mkValves { ha_url : string; ha_api_key : string }.

Record Tools : Type := mkTools {
  valves : Valves;
  entity_cache : pydict (list Entity);
  citation : bool
}.

(** [Tools.__init__], with the valves as configured by the host. *)
Definition init (v : Valves) : Tools :=
  {| valves := v; entity_cache := []; citation := false |}.

Record state : Type := mkState {
  self : Tools;
  emitted : list event;      (* events handed to the callback, oldest first *)
  sent : list request        (* requests handed to the HTTP layer *)
}.

Definition M (A : Type) : Type := state -> result raised A * state.

Definition ret {A} (a : A) : M A := fun st => (Ret a, st).

Definition bind {A B} (m : M A) (k : A -> M B) : M B :=
  fun st =>
    match m st with
    | (Ret a, st') => k a st'
    | (Raise e, st') => (Raise e, st')
    end.

(** An [Exception] raised by a step of a method. *)
Definition thrown {A} (o : outcome A) : result raised A :=
  match o with
  | Ret a => Ret a
  | Raise e => Raise (AnException e)
  end.

Definition lift {A} (o : outcome A) : M A := fun st => (thrown o, st).

(** [try: body except Exception as e: handler e] *)
Definition try_except {A} (body : M A) (handler : exn -> M A) : M A :=
  fun st =>
    match body st with
    | (Ret a, st') => (Ret a, st')
    | (Raise (AnException e), st') => handler e st'
    | (Raise (ABaseException b), st') => (Raise (ABaseException b), st')
    end.

Declare Scope M_scope.
Delimit Scope M_scope with M.
Notation "x <- m ;; k" := (bind m (fun x => k))
  (at level 61, m at next level, right associativity) : M_scope.
Notation "m ;;; k" := (bind m (fun _ => k))
  (at level 61, right associativity) : M_scope.

Definition get_valves : M Valves := fun st => (Ret (valves (self st)), st).

(** [self.entity_cache[k] = v] *)
Definition cache_setitem (k : string) (v : list Entity) : M unit :=
  fun st =>
    (Ret tt,
     {| self := {| valves := valves (self st);
                   entity_cache := dict_set k v (entity_cache (self st));
                   citation := citation (self st) |};
        emitted := emitted st; sent := sent st |}).

(** [self.entity_cache = d] *)
Definition cache_assign (d : pydict (list Entity)) : M unit :=
  fun st =>
    (Ret tt,
     {| self := {| valves := valves (self st);
                   entity_cache := d;
                   citation := citation (self st) |};
        emitted := emitted st; sent := sent st |}).

Definition emit (em : emitter) (ev : event) : M unit :=
  fun st =>
    match em with
    | None =>
        (Raise (AnException (mkExn TypeError "'NoneType' object is not callable")),
         st)
    | Some f =>
        let st' := {| self := self st; emitted := emitted st ++ [ev];
                      sent := sent st |} in
        match f (emitted st) ev with
        | None => (Ret tt, st')
        | Some e => (Raise e, st')
        end
    end.

Definition perform (requests : http) (r : request) : M Response :=
  fun st =>
    (thrown (requests r),
     {| self := self st; emitted := emitted st; sent := sent st ++ [r] |}).

Definition auth_headers (v : Valves) : pydict string :=
  [("Authorization", ("Bearer " ++ ha_api_key v)%string);
   ("Content-Type", "application/json")].

(** ** The six operations *)

Local Open Scope M_scope.

Definition for_each {A} (l : list A) (body : A -> M unit) : M unit :=
  fold_right (fun x k => body x ;;; k) (ret tt) l.

(** One row of the markdown table both discovery operations emit. *)
Definition table_row (e : Entity) : text :=
  [Lit "| `"; StrOf (entity_id e); Lit "` | "; StrOf (friendly_name e);
   Lit (" |" ++ nl)].

Definition table_header : text :=
  [Lit ("| Entity ID | Friendly Name |" ++ nl
        ++ "|-----------|----------------|" ++ nl)].

(** The list comprehension of [getEntitiesByDomain]: the condition is
    evaluated first, then the three entries of the dict display. *)
Fixpoint comprehension (dom : string) (all_states : list pyval)
  : outcome (list Entity) :=
  match all_states with
  | [] => Ret []
  | entity :: rest =>
      (eid <- subscript entity "entity_id" ;;
       keep <- startswith_method eid (dom ++ ".") ;;
       if keep : bool then
         eid1 <- subscript entity "entity_id" ;;
         attrs <- subscript entity "attributes" ;;
         fname <- get_method attrs "friendly_name" (PStr "unknown") ;;
         eid2 <- subscript entity "entity_id" ;;
         parts <- split_method eid2 ;;
         d <- index0 parts ;;
         es <- comprehension dom rest ;;
         Ret (mkEntity eid1 fname d :: es)
       else comprehension dom rest)%out
  end.

(** What [getEntitiesByDomain] returns: a list of entity dicts, or a list
    of error strings. *)
Inductive discovery : Type :=
| Entities (l : list Entity)
| Errors (l : list text).

Section Operations.
Variable requests : http.

Definition getEntitiesByDomain_try (dom : string) (__event_emitter__ : emitter)
  : M discovery :=
  emit __event_emitter__
    (Status [Lit ("Querying entities in domain '" ++ dom ++ "'")] false) ;;;
  v <- get_valves ;;
  let endpoint := (ha_url v ++ "/api/states")%string in
  let headers := auth_headers v in
  response <- perform requests (Get endpoint headers) ;;
  if negb (status_code response =? 200)%Z then
    emit __event_emitter__
      (Status [Lit "Error: "; StrOf (PInt (status_code response))] true) ;;;
    ret (Errors [[Lit "Error "; StrOf (PInt (status_code response));
                  Lit (": " ++ response_text response)]])
  else
    all_states <- lift (response_json response) ;;
    items <- lift (iterate all_states) ;;
    entities <- lift (comprehension dom items) ;;
    cache_setitem dom entities ;;;
    let markdown_table :=
      [Lit ("**Discovered entities in domain** `" ++ dom ++ "`:" ++ nl ++ nl)]
      ++ table_header ++ flat_map table_row entities in
    emit __event_emitter__ (Message markdown_table) ;;;
    emit __event_emitter__
      (Message [Lit ("🧠 If you want to know the *current state* of one of these devices, "
                     ++ "call `getAttributesForEntity(entity_id)` with the correct `entity_id`.")]) ;;;
    emit __event_emitter__ (Status [Lit "Discovery complete"] true) ;;;
    ret (Entities entities).

Definition getEntitiesByDomain_except (__event_emitter__ : emitter) (e : exn)
  : M discovery :=
  emit __event_emitter__
    (Status [Lit ("Exception occurred: " ++ exn_str e)] true) ;;;
  ret (Errors [[Lit ("An error occurred: " ++ exn_str e)]]).

Definition getEntitiesByDomain (dom : string) (__event_emitter__ : emitter)
  : M discovery :=
  try_except (getEntitiesByDomain_try dom __event_emitter__)
             (getEntitiesByDomain_except __event_emitter__).

(** One turn of the grouping loop of [getAllEntities]. *)
Definition group_step (grouped : pydict (list Entity)) (entity : pyval)
  : outcome (pydict (list Entity)) :=
  (eid <- subscript entity "entity_id" ;;
   parts <- split_method eid ;;
   d <- index0 parts ;;
   eid1 <- subscript entity "entity_id" ;;
   attrs <- subscript entity "attributes" ;;
   fname <- get_method attrs "friendly_name" (PStr "unknown") ;;
   let obj := mkEntity eid1 fname d in
   let (l, grouped') := dict_setdefault d [] grouped in
   Ret (dict_set d (l ++ [obj]) grouped'))%out.

Fixpoint group_loop (grouped : pydict (list Entity)) (all_states : list pyval)
  : outcome (pydict (list Entity)) :=
  match all_states with
  | [] => Ret grouped
  | entity :: rest =>
      (g <- group_step grouped entity ;; group_loop g rest)%out
  end.

Definition getAllEntities_try (__event_emitter__ : emitter)
  : M (pydict (list Entity)) :=
  emit __event_emitter__ (Status [Lit "Querying all entities"] false) ;;;
  v <- get_valves ;;
  let endpoint := (ha_url v ++ "/api/states")%string in
  let headers := auth_headers v in
  response <- perform requests (Get endpoint headers) ;;
  if negb (status_code response =? 200)%Z then
    emit __event_emitter__
      (Status [Lit "Error: "; StrOf (PInt (status_code response))] true) ;;;
    ret []
  else
    all_states <- lift (response_json response) ;;
    items <- lift (iterate all_states) ;;
    grouped <- lift (group_loop [] items) ;;
    cache_assign grouped ;;;
    for_each grouped (fun kv =>
      let markdown_table :=
        [Lit ("### Domain: `" ++ fst kv ++ "`" ++ nl ++ nl)]
        ++ table_header ++ flat_map table_row (snd kv) in
      emit __event_emitter__ (Message markdown_table)) ;;;
    emit __event_emitter__ (Status [Lit "Full discovery complete"] true) ;;;
    ret grouped.

Definition getAllEntities_except (__event_emitter__ : emitter) (e : exn)
  : M (pydict (list Entity)) :=
  emit __event_emitter__
    (Status [Lit ("Exception occurred: " ++ exn_str e)] true) ;;;
  ret [].

Definition getAllEntities (__event_emitter__ : emitter)
  : M (pydict (list Entity)) :=
  try_except (getAllEntities_try __event_emitter__)
             (getAllEntities_except __event_emitter__).

Definition request_details (endpoint : string) (payload : text) : text :=
  [Lit ("**Request Details**" ++ nl ++ "- Endpoint: `" ++ endpoint ++ "`" ++ nl
        ++ "- Payload: ```json" ++ nl)]
  ++ payload ++ [Lit (nl ++ "```")].

Definition response_details (response : Response) : text :=
  [Lit ("**Response Details**" ++ nl ++ "- Status: `");
   StrOf (PInt (status_code response));
   Lit ("`" ++ nl ++ "- Body: ```json" ++ nl ++ response_text response ++ nl
        ++ "```")].

Definition controlEntity_try (entityID dom service : string)
           (__event_emitter__ : emitter) : M text :=
  emit __event_emitter__
    (Status [Lit ("Sending " ++ service ++ " command to " ++ entityID)] false) ;;;
  v <- get_valves ;;
  let endpoint := (ha_url v ++ "/api/services/" ++ dom ++ "/" ++ service)%string in
  let payload := json_dumps (PDict [("entity_id", PStr entityID)]) in
  let headers := auth_headers v in
  emit __event_emitter__ (Message (request_details endpoint payload)) ;;;
  response <- perform requests (Post endpoint payload headers) ;;
  emit __event_emitter__ (Message (response_details response)) ;;;
  emit __event_emitter__ (Status [Lit "Command complete"] true) ;;;
  request_payload <- lift (json_loads payload) ;;
  ret (json_dumps
         (PDict [("success", PBool (status_code response =? 200)%Z);
                 ("status_code", PInt (status_code response));
                 ("entity", PStr entityID);
                 ("service", PStr service);
                 ("request_url", PStr endpoint);
                 ("request_payload", request_payload);
                 ("response", PStr (response_text response))])).

(** The handler shared, word for word, by [controlEntity] and
    [setEntityAttribute]. *)
Definition command_except (__event_emitter__ : emitter) (e : exn) : M text :=
  emit __event_emitter__
    (Status [Lit ("Error occurred: " ++ exn_str e)] true) ;;;
  ret (json_dumps (PDict [("success", PBool false);
                          ("error", PStr (exn_str e))])).

Definition controlEntity (entityID dom service : string)
           (__event_emitter__ : emitter) : M text :=
  try_except (controlEntity_try entityID dom service __event_emitter__)
             (command_except __event_emitter__).

(** [next((s for s in all_services if s["domain"] == domain), None)] *)
Fixpoint first_match (dom : string) (all_services : list pyval)
  : outcome pyval :=
  match all_services with
  | [] => Ret PNone
  | s :: rest =>
      (d <- subscript s "domain" ;;
       if eq_str d dom then Ret s else first_match dom rest)%out
  end.

Definition getAvailableServicesForDomain_try (dom : string)
           (__event_emitter__ : emitter) : M pyval :=
  emit __event_emitter__
    (Status [Lit ("Fetching available services for domain '" ++ dom ++ "'")]
            false) ;;;
  v <- get_valves ;;
  let endpoint := (ha_url v ++ "/api/services")%string in
  let headers := auth_headers v in
  response <- perform requests (Get endpoint headers) ;;
  if negb (status_code response =? 200)%Z then
    emit __event_emitter__
      (Status [Lit "Error: "; StrOf (PInt (status_code response))] true) ;;;
    ret (PList [])
  else
    all_services <- lift (response_json response) ;;
    items <- lift (iterate all_services) ;;
    matching <- lift (first_match dom items) ;;
    if negb (truthy matching) then
      emit __event_emitter__
        (Message [Lit ("No services found for domain `" ++ dom ++ "`")]) ;;;
      ret (PList [])
    else
      services <- lift (subscript matching "services") ;;
      names <- lift (iterate services) ;;
      let markdown :=
        [Lit ("**Available services for domain** `" ++ dom ++ "`:" ++ nl ++ nl)]
        ++ flat_map (fun s => [Lit "- `"; StrOf s; Lit ("`" ++ nl)]) names in
      emit __event_emitter__ (Message markdown) ;;;
      emit __event_emitter__ (Status [Lit "Service list complete"] true) ;;;
      ret services.

Definition getAvailableServicesForDomain_except (__event_emitter__ : emitter)
           (e : exn) : M pyval :=
  emit __event_emitter__
    (Status [Lit ("Error occurred: " ++ exn_str e)] true) ;;;
  ret (PList []).

Definition getAvailableServicesForDomain (dom : string)
           (__event_emitter__ : emitter) : M pyval :=
  try_except (getAvailableServicesForDomain_try dom __event_emitter__)
             (getAvailableServicesForDomain_except __event_emitter__).

Definition getAttributesForEntity_try (entity_id : string)
           (__event_emitter__ : emitter) : M (pydict pyval) :=
  emit __event_emitter__
    (Status [Lit ("Querying current state of `" ++ entity_id ++ "`")] false) ;;;
  v <- get_valves ;;
  let endpoint := (ha_url v ++ "/api/states/" ++ entity_id)%string in
  let headers := auth_headers v in
  response <- perform requests (Get endpoint headers) ;;
  if negb (status_code response =? 200)%Z then
    emit __event_emitter__
      (Status [Lit "Error: "; StrOf (PInt (status_code response))] true) ;;;
    ret []
  else
    data <- lift (response_json response) ;;
    state <- lift (get_method data "state" PNone) ;;
    attributes <- lift (get_method data "attributes" (PDict [])) ;;
    items <- lift (items_method attributes) ;;
    let markdown :=
      [Lit ("**Current state for `" ++ entity_id ++ "`**: `"); StrOf state;
       Lit ("`" ++ nl ++ nl); Lit ("**Attributes:**" ++ nl ++ nl)]
      ++ flat_map (fun kv => [Lit ("- **" ++ fst kv ++ "**: `");
                              StrOf (snd kv); Lit ("`" ++ nl)]) items in
    emit __event_emitter__ (Message markdown) ;;;
    emit __event_emitter__ (Status [Lit "Attribute query complete"] true) ;;;
    ret [("state", state); ("attributes", attributes)].

Definition getAttributesForEntity_except (__event_emitter__ : emitter)
           (e : exn) : M (pydict pyval) :=
  emit __event_emitter__
    (Status [Lit ("Error occurred: " ++ exn_str e)] true) ;;;
  ret [("error", PStr (exn_str e))].

Definition getAttributesForEntity (entity_id : string)
           (__event_emitter__ : emitter) : M (pydict pyval) :=
  try_except (getAttributesForEntity_try entity_id __event_emitter__)
             (getAttributesForEntity_except __event_emitter__).

(** [{"entity_id": entity_id, **data}] *)
Definition payload_dict (entity_id : string) (data : pydict pyval)
  : pydict pyval :=
  dict_update [("entity_id", PStr entity_id)] data.

Definition setEntityAttribute_try (entity_id dom service : string)
           (data : pydict pyval) (__event_emitter__ : emitter) : M text :=
  emit __event_emitter__
    (Status [Lit ("Sending `" ++ service ++ "` with data to `" ++ entity_id
                  ++ "`")] false) ;;;
  v <- get_valves ;;
  let endpoint := (ha_url v ++ "/api/services/" ++ dom ++ "/" ++ service)%string in
  let payload_dict := payload_dict entity_id data in
  let payload := json_dumps (PDict payload_dict) in
  let headers := auth_headers v in
  emit __event_emitter__ (Message (request_details endpoint payload)) ;;;
  response <- perform requests (Post endpoint payload headers) ;;
  emit __event_emitter__ (Message (response_details response)) ;;;
  emit __event_emitter__ (Status [Lit "Attribute change complete"] true) ;;;
  ret (json_dumps
         (PDict [("success", PBool (status_code response =? 200)%Z);
                 ("status_code", PInt (status_code response));
                 ("entity", PStr entity_id);
                 ("domain", PStr dom);
                 ("service", PStr service);
                 ("payload", PDict payload_dict);
                 ("response", PStr (response_text response))])).

Definition setEntityAttribute (entity_id dom service : string)
           (data : pydict pyval) (__event_emitter__ : emitter) : M text :=
  try_except (setEntityAttribute_try entity_id dom service data
                                     __event_emitter__)
             (command_except __event_emitter__).
End Operations.

(** ** Vocabulary of the properties *)

Local Close Scope M_scope.
Local Close Scope outcome_scope.

(** The prefix of a string before its first dot (the whole string when it
    has none), written directly rather than through [split]. *)
Fixpoint before_first_dot (s : string) : string :=
  match s with
  | EmptyString => EmptyString
  | String c rest =>
      if Ascii.eqb c dot then EmptyString else String c (before_first_dot rest)
  end.

(** A hub state object whose [entity_id] starts with [dom] and a dot. *)
Definition keeps (dom : string) (item : pyval) : bool :=
  match item with
  | PDict d =>
      match dict_get "entity_id" d with
      | Some (PStr s) => startswith s (dom ++ ".")
      | _ => false
      end
  | _ => false
  end.

(** [projects item e]: [e] is the Entity made from the state object [item]. *)
Definition projects (item : pyval) (e : Entity) : Prop :=
  exists d s attrs,
    item = PDict d /\
    dict_get "entity_id" d = Some (PStr s) /\
    dict_get "attributes" d = Some (PDict attrs) /\
    e = {| entity_id := PStr s;
           friendly_name := match dict_get "friendly_name" attrs with
                            | Some x => x
                            | None => PStr "unknown"
                            end;
           domain := before_first_dot s |}.

(** The entities of [ents] whose domain is [k], in the order of [ents]. *)
Definition group_of (k : string) (ents : list Entity) : list Entity :=
  filter (fun e => String.eqb (domain e) k) ents.

(** The grouping invariant of [getAllEntities]: every key of [g] is bound
    once, to the non-empty list of the entities of that domain. *)
Definition grouping (g : pydict (list Entity)) (ents : list Entity) : Prop :=
  NoDup (dict_keys g) /\
  forall k, dict_get k g =
            match group_of k ents with [] => None | es => Some es end.

(** A callback that accepts every event. *)
Definition never_raises (em : emitter) : Prop :=
  exists f, em = Some f /\ forall log ev, f log ev = None.

(** A record of [/api/services] for another domain than [dom]. *)
Definition other_domain (dom : string) (r : pyval) : Prop :=
  exists d v, r = PDict d /\ dict_get "domain" d = Some v /\ eq_str v dom = false.

Definition is_status (ev : event) : bool :=
  match ev with Status _ _ => true | Message _ => false end.

Definition url_states (st : state) : string :=
  ha_url (valves (self st)) ++ "/api/states".

Definition url_service (st : state) (dom service : string) : string :=
  ha_url (valves (self st)) ++ "/api/services/" ++ dom ++ "/" ++ service.

(** The JSON record [r] returned by a command reports, in its [success]
    field, whether the status of [response] is exactly 200. *)
Definition reports (r : text) (response : Response) : Prop :=
  exists record b,
    json_loads r = Ret (PDict record) /\
    dict_get "status_code" record = Some (PInt (status_code response)) /\
    dict_get "success" record = Some (PBool b) /\
    (b = true <-> status_code response = 200%Z).

(** The request a command sends: a POST of [body] to the service URL. *)
Definition command_request (st : state) (dom service : string) (body : pyval)
  : request :=
  Post (url_service st dom service) (json_dumps body)
       (auth_headers (valves (self st))).

(** The method returns a value from [st]: no exception reaches the caller. *)
Definition returns (A : Type) (m : M A) (st : state) : Prop :=
  exists a, fst (m st) = Ret a.

(** What a [try] body [body] with its handler, together the method [op],
    makes of the body's result.  The handler awaits the callback on
    [closing e] and then returns [inband e]. *)
Definition handled (A : Type) (em : emitter) (closing : exn -> event)
           (inband : exn -> A) (body op : M A) (st : state) : Prop :=
  (forall a st', body st = (Ret a, st') -> op st = (Ret a, st')) /\
  (forall (e : exn) st1 st2,
      body st = (Raise (AnException e), st1) ->
      emit em (closing e) st1 = (Ret tt, st2) ->
      op st = (Ret (inband e), st2)) /\
  (forall r st',
      op st = (Raise r, st') <->
      (exists b, r = ABaseException b /\ body st = (Raise r, st')) \/
      (exists (e : exn) st1,
          body st = (Raise (AnException e), st1) /\
          emit em (closing e) st1 = (Raise r, st'))).

(** The closing status of the handlers. *)
Definition exception_occurred (e : exn) : event :=
  Status [Lit ("Exception occurred: " ++ exn_str e)] true.

Definition error_occurred (e : exn) : event :=
  Status [Lit ("Error occurred: " ++ exn_str e)] true.

(** A method keeps the relation [R] between the state before and after
    it, whether it returns or raises. *)
Definition keeps_frame (R : state -> state -> Prop) (A : Type) (m : M A) : Prop :=
  forall st, R st (snd (m st)).

(** The object itself is untouched. *)
Definition same_self (st st' : state) : Prop := self st' = self st.

(** Every request handed to the HTTP layer satisfies [P]. *)
Definition sends (P : request -> Prop) (st st' : state) : Prop :=
  exists tail, sent st' = sent st ++ tail /\ Forall P tail.

(** The requests of the three read operations. *)
Definition states_request (st : state) : request :=
  Get (url_states st) (auth_headers (valves (self st))).

Definition state_request (st : state) (entity_id : string) : request :=
  Get (ha_url (valves (self st)) ++ "/api/states/" ++ entity_id)
      (auth_headers (valves (self st))).

Definition services_request (st : state) : request :=
  Get (ha_url (valves (self st)) ++ "/api/services")
      (auth_headers (valves (self st))).

(** The state after a call that only emitted [evs] and sent [r]. *)
Definition after (st : state) (evs : list event) (r : request) : state :=
  {| self := self st; emitted := emitted st ++ evs; sent := sent st ++ [r] |}.

(** ** Concrete hubs and callbacks used to exercise the statements *)

Definition quiet : emitter := Some (fun _ _ => None).

Definition fresh : state :=
  {| self := init {| ha_url := "http://ha.local:8123"; ha_api_key := "token" |};
     emitted := []; sent := [] |}.

Definition replies (code : Z) (body : string) (js : pyval) : http :=
  fun _ => Ret {| status_code := code; response_text := body;
                  response_json := Ret js |}.

(** A callback that is cancelled on the event it is handed after [n]
    others: awaiting it raises [asyncio.CancelledError]. *)
Definition cancelled : base_exn := mkBase CancelledError "".

Definition cancelled_at (n : nat) : emitter :=
  Some (fun log _ =>
          if Nat.eqb (length log) n then Some (ABaseException cancelled)
          else None).

(** A hub that cannot be reached. *)
Definition unreachable : http :=
  fun _ => Raise (mkExn RequestException "Connection refused").

Definition state_obj (id : string) (attrs : pydict pyval) : pyval :=
  PDict [("entity_id", PStr id); ("attributes", PDict attrs)].

Definition two_states : pyval :=
  PList [state_obj "light.a" [("friendly_name", PStr "A")];
         state_obj "switch.b" []].

Definition three_states : pyval :=
  PList [state_obj "light.a" [("friendly_name", PStr "A")];
         state_obj "switch.b" [];
         state_obj "light.c" []].

Definition dotted_states : pyval :=
  PList [state_obj "a.b.c" []].

Definition two_services : pyval :=
  PList [PDict [("domain", PStr "light");
                ("services", PDict [("turn_on", PDict []); ("turn_off", PDict [])])];
         PDict [("domain", PStr "switch");
                ("services", PDict [("toggle", PDict [])])]].

(** ** Vocabulary of the properties of the object as a whole *)

Definition with_cache (t : Tools) (c : pydict (list Entity)) : Tools :=
  {| valves := valves t; entity_cache := c; citation := citation t |}.

(** A state object that has a string [entity_id]. *)
Definition has_entity_id (item : pyval) : Prop :=
  exists d s, item = PDict d /\ dict_get "entity_id" d = Some (PStr s).

Definition id_has_dot (e : Entity) : bool :=
  match entity_id e with
  | PStr s => has_dot s
  | _ => false
  end.

(** An entity that may sit under the cache key [k]: its id is [k] itself or
    starts with [k] and a dot, and its domain is the prefix of its id. *)
Definition filed_under (k : string) (e : Entity) : Prop :=
  exists s,
    entity_id e = PStr s /\
    domain e = before_first_dot s /\
    (s = k \/ startswith s (k ++ ".") = true).

Definition cache_ok (c : pydict (list Entity)) : Prop :=
  NoDup (dict_keys c) /\
  forall k es, In (k, es) c -> Forall (filed_under k) es.

(** The keys of a grouping, in the order of first appearance. *)
Definition add_key (keys : list string) (k : string) : list string :=
  if existsb (String.eqb k) keys then keys else keys ++ [k].

Definition first_seen (l : list string) : list string :=
  fold_left add_key l [].

(** The messages of the two discovery operations. *)
Definition entity_table (dom : string) (entities : list Entity) : event :=
  Message ([Lit ("**Discovered entities in domain** `" ++ dom ++ "`:" ++ nl ++ nl)]
           ++ table_header ++ flat_map table_row entities).

Definition state_hint : event :=
  Message [Lit ("🧠 If you want to know the *current state* of one of these devices, "
                ++ "call `getAttributesForEntity(entity_id)` with the correct `entity_id`.")].

Definition group_table (kv : string * list Entity) : event :=
  Message ([Lit ("### Domain: `" ++ fst kv ++ "`" ++ nl ++ nl)]
           ++ table_header ++ flat_map table_row (snd kv)).

(** The message of [getAttributesForEntity]. *)
Definition attribute_summary (entity_id : string) (state : pyval)
           (items : pydict pyval) : event :=
  Message ([Lit ("**Current state for `" ++ entity_id ++ "`**: `"); StrOf state;
            Lit ("`" ++ nl ++ nl); Lit ("**Attributes:**" ++ nl ++ nl)]
           ++ flat_map (fun kv => [Lit ("- **" ++ fst kv ++ "**: `");
                                   StrOf (snd kv); Lit ("`" ++ nl)]) items).

(** One call of a method of the object, with its arguments. *)
Inductive call : Type :=
| GetEntitiesByDomain (dom : string)
| GetAllEntities
| ControlEntity (entityID dom service : string)
| GetAvailableServicesForDomain (dom : string)
| GetAttributesForEntity (entity_id : string)
| SetEntityAttribute (entity_id dom service : string) (data : pydict pyval).

(** The state a call leaves behind, whether it returned or raised. *)
Definition invoke (requests : http) (em : emitter) (c : call) (st : state)
  : state :=
  match c with
  | GetEntitiesByDomain dom => snd (getEntitiesByDomain requests dom em st)
  | GetAllEntities => snd (getAllEntities requests em st)
  | ControlEntity entityID dom service =>
      snd (controlEntity requests entityID dom service em st)
  | GetAvailableServicesForDomain dom =>
      snd (getAvailableServicesForDomain requests dom em st)
  | GetAttributesForEntity entity_id =>
      snd (getAttributesForEntity requests entity_id em st)
  | SetEntityAttribute entity_id dom service data =>
      snd (setEntityAttribute requests entity_id dom service data em st)
  end.

(** A session: calls made one after the other, each against its own
    behaviour of the hub and of the callback. *)
Definition run (calls : list (http * emitter * call)) (st : state) : state :=
  fold_left (fun s x => invoke (fst (fst x)) (snd (fst x)) (snd x) s) calls st.

(** The one request a call may send. *)
Definition request_of (st : state) (c : call) : request :=
  match c with
  | GetEntitiesByDomain _ | GetAllEntities => states_request st
  | ControlEntity entityID dom service =>
      command_request st dom service (PDict [("entity_id", PStr entityID)])
  | GetAvailableServicesForDomain _ => services_request st
  | GetAttributesForEntity entity_id => state_request st entity_id
  | SetEntityAttribute entity_id dom service data =>
      command_request st dom service (PDict (payload_dict entity_id data))
  end.

(** A state object without its [attributes]. *)
Definition bare_state (id : string) : pyval := PDict [("entity_id", PStr id)].

Definition mixed_states : pyval :=
  PList [state_obj "light.a" [("friendly_name", PStr "A")];
         bare_state "sensor.x";
         state_obj "light" []].


(** The events a command emits before and after its request. *)
Definition command_opening (entityID dom service : string) (st : state)
           (body : pyval) : list event :=
  [Status [Lit ("Sending " ++ service ++ " command to " ++ entityID)] false;
   Message (request_details (url_service st dom service) (json_dumps body))].

Definition command_failed (e : exn) : event :=
  Status [Lit ("Error occurred: " ++ exn_str e)] true.

Definition command_error (e : exn) : text :=
  json_dumps (PDict [("success", PBool false); ("error", PStr (exn_str e))]).

(** A narration that is opened by a status that is not done and closed by
    a status that is done. *)
Definition closes (evs : list event) : Prop :=
  exists pre d, evs = pre ++ [Status d true].

Definition narrates (evs : list event) : Prop :=
  exists d rest, evs = Status d false :: rest /\ closes rest.

(** What the body of a 200 answer becomes in each discovery. *)
Definition reshaped_for (dom : string) (response : Response)
  : outcome (list Entity) :=
  obind (response_json response)
        (fun all_states => obind (iterate all_states) (comprehension dom)).

Definition reshaped_all (response : Response) : outcome (pydict (list Entity)) :=
  obind (response_json response)
        (fun all_states => obind (iterate all_states) (group_loop [])).

(** The object after a call, read off the hub alone: the cache entry or
    the cache is replaced when the hub answers 200 with a body that can be
    reshaped, and nothing changes otherwise. *)
Definition refreshed (requests : http) (c : call) (t : Tools) : Tools :=
  let answer :=
    requests (Get (ha_url (valves t) ++ "/api/states") (auth_headers (valves t))) in
  match c with
  | GetEntitiesByDomain dom =>
      match answer with
      | Ret response =>
          if (status_code response =? 200)%Z then
            match reshaped_for dom response with
            | Ret ents => with_cache t (dict_set dom ents (entity_cache t))
            | Raise _ => t
            end
          else t
      | Raise _ => t
      end
  | GetAllEntities =>
      match answer with
      | Ret response =>
          if (status_code response =? 200)%Z then
            match reshaped_all response with
            | Ret grouped => with_cache t grouped
            | Raise _ => t
            end
          else t
      | Raise _ => t
      end
  | _ => t
  end.

(** * Properties *)

Unset Implicit Arguments.

(** ** Strings *)

Lemma index0_split_dot (s : string) :
  index0 (split_dot s) = Ret (before_first_dot s).
Proof.
  induction s as [|c rest IH]; simpl; [reflexivity|].
  destruct (Ascii.eqb c dot); [reflexivity|].
  destruct (split_dot rest) as [|p ps]; simpl in *; [discriminate|].
  congruence.
Qed.

Lemma before_first_dot_no_dot (s : string) :
  has_dot (before_first_dot s) = false.
Proof.
  induction s as [|c rest IH]; simpl; [reflexivity|].
  destruct (Ascii.eqb c dot) eqn:E; simpl; [reflexivity|].
  now rewrite E.
Qed.

Lemma before_first_dot_prefix (s : string) :
  exists rest,
    s = (before_first_dot s ++ rest)%string /\
    (rest = EmptyString \/ exists r, rest = String dot r).
Proof.
  induction s as [|c s IH]; simpl.
  - exists EmptyString. auto.
  - destruct (Ascii.eqb c dot) eqn:E.
    + apply Ascii.eqb_eq in E. subst c. exists (String dot s). simpl. eauto.
    + destruct IH as [rest [Hs Hrest]]. exists rest. simpl.
      split; [now rewrite <- Hs | exact Hrest].
Qed.

Lemma startswith_nil (p : string) : startswith EmptyString (String dot p) = false.
Proof. reflexivity. Qed.

Lemma startswith_cons (a b : ascii) (s p : string) :
  startswith (String b s) (String a p) = (Ascii.eqb a b && startswith s p).
Proof.
  unfold startswith. cbn [String.prefix].
  destruct (ascii_dec a b) as [->|Hne].
  - now rewrite Ascii.eqb_refl.
  - apply Ascii.eqb_neq in Hne. now rewrite Hne.
Qed.

Lemma startswith_before_first_dot (d s : string) :
  has_dot d = false ->
  startswith s (d ++ ".") = true ->
  before_first_dot s = d.
Proof.
  revert s.
  induction d as [|c d IH]; intros s Hd Hp; cbn [String.append] in Hp.
  - destruct s as [|b s]; [discriminate|].
    rewrite startswith_cons in Hp. apply andb_true_iff in Hp as [Hb _].
    apply Ascii.eqb_eq in Hb. subst b. reflexivity.
  - destruct s as [|b s]; [discriminate|].
    rewrite startswith_cons in Hp. apply andb_true_iff in Hp as [Hb Hp].
    apply Ascii.eqb_eq in Hb. subst b.
    cbn [has_dot] in Hd. apply orb_false_iff in Hd as [Hc Hd].
    cbn [before_first_dot]. rewrite Hc. f_equal. now apply IH.
Qed.

(** ** Dictionaries *)

Section DictFacts.
Variable V : Type.
Implicit Types (d : pydict V) (k : string) (v : V).

Lemma dict_get_set_same k v d : dict_get k (dict_set k v d) = Some v.
Proof.
  induction d as [|[k' v'] d IH]; simpl.
  - now rewrite String.eqb_refl.
  - destruct (String.eqb k k') eqn:E; simpl; rewrite E; auto.
Qed.

Lemma dict_get_set_other k k' v d :
  k' <> k -> dict_get k' (dict_set k v d) = dict_get k' d.
Proof.
  intros Hne. induction d as [|[k0 v0] d IH]; simpl.
  - apply String.eqb_neq in Hne. now rewrite Hne.
  - destruct (String.eqb k k0) eqn:E; simpl.
    + apply String.eqb_eq in E. subst k0.
      apply String.eqb_neq in Hne. now rewrite Hne.
    + now rewrite IH.
Qed.

Lemma dict_get_none_keys k d :
  dict_get k d = None <-> ~ In k (dict_keys d).
Proof.
  induction d as [|[k' v'] d IH]; simpl.
  - tauto.
  - destruct (String.eqb k k') eqn:E.
    + apply String.eqb_eq in E. subst. split; [discriminate|tauto].
    + apply String.eqb_neq in E. rewrite IH. split; [intuition congruence|tauto].
Qed.

Lemma dict_get_in k v d :
  NoDup (dict_keys d) -> In (k, v) d -> dict_get k d = Some v.
Proof.
  induction d as [|[k' v'] d IH]; simpl; intros Hnd Hin; [tauto|].
  inversion Hnd as [|? ? Hnotin Hnd']; subst.
  destruct Hin as [Heq|Hin].
  - inversion Heq; subst. now rewrite String.eqb_refl.
  - destruct (String.eqb k k') eqn:E; [|now apply IH].
    apply String.eqb_eq in E. subst k'.
    exfalso. apply Hnotin. change k with (fst (k, v)). now apply in_map.
Qed.

Lemma dict_get_some_in k v d : dict_get k d = Some v -> In (k, v) d.
Proof.
  induction d as [|[k' v'] d IH]; simpl; [discriminate|].
  destruct (String.eqb k k') eqn:E; intros H.
  - apply String.eqb_eq in E. left. congruence.
  - right. now apply IH.
Qed.

Lemma dict_keys_set_present k v v0 d :
  dict_get k d = Some v0 -> dict_keys (dict_set k v d) = dict_keys d.
Proof.
  induction d as [|[k' v'] d IH]; simpl; [discriminate|].
  destruct (String.eqb k k') eqn:E; simpl; intros H; [reflexivity|].
  f_equal. now apply IH.
Qed.

Lemma dict_set_absent k v d :
  dict_get k d = None -> dict_set k v d = d ++ [(k, v)].
Proof.
  induction d as [|[k' v'] d IH]; simpl; [reflexivity|].
  destruct (String.eqb k k') eqn:E; intros H; [discriminate|].
  f_equal. now apply IH.
Qed.

Lemma dict_set_nodup k v d :
  NoDup (dict_keys d) -> NoDup (dict_keys (dict_set k v d)).
Proof.
  intros Hnd. destruct (dict_get k d) as [v0|] eqn:E.
  - now erewrite dict_keys_set_present by eassumption.
  - rewrite dict_set_absent by assumption. unfold dict_keys. rewrite map_app. simpl.
    apply dict_get_none_keys in E.
    apply Permutation_NoDup with (l := k :: map fst d).
    + apply Permutation_cons_append.
    + now constructor.
Qed.
End DictFacts.

(** ** Python expressions that return *)

Lemma subscript_ret (v x : pyval) (k : string) :
  subscript v k = Ret x -> exists d, v = PDict d /\ dict_get k d = Some x.
Proof.
  destruct v; simpl; try discriminate.
  destruct (dict_get k d) eqn:E; [|discriminate].
  intros H. inversion H. subst. eauto.
Qed.

Lemma startswith_method_ret (v : pyval) (p : string) (b : bool) :
  startswith_method v p = Ret b -> exists s, v = PStr s /\ b = startswith s p.
Proof.
  destruct v; simpl; try discriminate. intros H. inversion H. eauto.
Qed.

Lemma split_method_ret (v : pyval) (l : list string) :
  split_method v = Ret l -> exists s, v = PStr s /\ l = split_dot s.
Proof.
  destruct v; simpl; try discriminate. intros H. inversion H. eauto.
Qed.

Lemma get_method_ret (v x dflt : pyval) (k : string) :
  get_method v k dflt = Ret x ->
  exists d, v = PDict d /\
            x = match dict_get k d with Some y => y | None => dflt end.
Proof.
  destruct v; simpl; try discriminate. intros H. inversion H. eauto.
Qed.

Lemma obind_ret_inv (A B : Type) (m : outcome A) (k : A -> outcome B) (r : B) :
  obind m k = Ret r -> exists a, m = Ret a /\ k a = Ret r.
Proof. destruct m as [a|e]; simpl; [eauto|discriminate]. Qed.

(** Splits a hypothesis [x <- m ;; k = Ret r] into [m = Ret a] and
    [k a = Ret r]. *)
Tactic Notation "obind_inv" hyp(H) "as" ident(a) ident(E) :=
  apply obind_ret_inv in H as (a & E & H).

(** One state object that passes through both guards of a discovery
    operation is projected as [projects] says. *)
Lemma projection_ret (entity eid1 attrs fname eid2 : pyval)
      (parts : list string) (d : string) :
  subscript entity "entity_id" = Ret eid1 ->
  subscript entity "attributes" = Ret attrs ->
  get_method attrs "friendly_name" (PStr "unknown") = Ret fname ->
  subscript entity "entity_id" = Ret eid2 ->
  split_method eid2 = Ret parts ->
  index0 parts = Ret d ->
  projects entity (mkEntity eid1 fname d).
Proof.
  intros H1 H2 H3 H4 H5 H6.
  apply subscript_ret in H1 as [dd [-> H1]].
  apply subscript_ret in H2 as [dd' [Hd' H2]].
  inversion Hd'; subst dd'.
  apply subscript_ret in H4 as [dd' [Hd'' H4]].
  inversion Hd''; subst dd'.
  apply get_method_ret in H3 as [at' [-> H3]].
  apply split_method_ret in H5 as [s [-> ->]].
  rewrite index0_split_dot in H6. inversion H6; subst d.
  rewrite H1 in H4. inversion H4; subst eid1.
  exists dd, s, at'. subst fname. auto.
Qed.

Lemma comprehension_spec (dom : string) (items : list pyval) :
  forall ents,
    comprehension dom items = Ret ents ->
    Forall2 projects (filter (keeps dom) items) ents.
Proof.
  induction items as [|entity rest IH]; intros ents H; cbn [comprehension] in H.
  - inversion H. constructor.
  - obind_inv H as eid Eid. obind_inv H as keep Ekeep.
    apply subscript_ret in Eid as [dd [-> Eid]].
    apply startswith_method_ret in Ekeep as [s [-> ->]].
    cbn [filter keeps]. rewrite Eid.
    destruct (startswith s (dom ++ ".")).
    + obind_inv H as eid1 E1. obind_inv H as attrs E2.
      obind_inv H as fname E3. obind_inv H as eid2 E4.
      obind_inv H as parts E5. obind_inv H as d E6.
      obind_inv H as es E7. inversion H; subst ents.
      constructor; [|now apply IH].
      eapply projection_ret;
        [exact E1 | exact E2 | exact E3 | exact E4 | exact E5 | exact E6].
    + now apply IH.
Qed.

Lemma projects_domain (item : pyval) (e : Entity) :
  projects item e ->
  exists s, entity_id e = PStr s /\ domain e = before_first_dot s.
Proof.
  intros (d & s & attrs & _ & _ & _ & ->). exists s. auto.
Qed.

Lemma projects_keeps (dom : string) (item : pyval) (e : Entity) :
  projects item e -> keeps dom item = true ->
  exists s, entity_id e = PStr s /\ startswith s (dom ++ ".") = true.
Proof.
  intros (d & s & attrs & -> & Hid & _ & ->) Hk.
  cbn [keeps] in Hk. rewrite Hid in Hk. exists s. auto.
Qed.

(** ** The grouping loop *)

Lemma group_of_snoc (k : string) (ents : list Entity) (e : Entity) :
  group_of k (ents ++ [e]) =
  group_of k ents ++ (if String.eqb (domain e) k then [e] else []).
Proof. unfold group_of. rewrite filter_app. reflexivity. Qed.

Lemma concat_set_present (V : Type) (k : string) (l x : list V)
      (g : pydict (list V)) :
  dict_get k g = Some l ->
  Permutation (concat (map snd (dict_set k (l ++ x) g)))
              (concat (map snd g) ++ x).
Proof.
  induction g as [|[k' v'] g IH]; cbn [dict_get dict_set]; [discriminate|].
  destruct (String.eqb k k') eqn:E; intros H; cbn [map snd concat].
  - inversion H; subst v'. rewrite <- !app_assoc.
    apply Permutation_app_head, Permutation_app_comm.
  - rewrite <- app_assoc. apply Permutation_app_head. now apply IH.
Qed.

Lemma grouping_nil : grouping [] [].
Proof. split; [constructor|reflexivity]. Qed.

Lemma group_step_spec (g g' : pydict (list Entity)) (item : pyval) :
  group_step g item = Ret g' ->
  exists e,
    projects item e /\
    (forall prior, grouping g prior -> grouping g' (prior ++ [e])) /\
    Permutation (concat (map snd g')) (concat (map snd g) ++ [e]).
Proof.
  unfold group_step. intros H.
  obind_inv H as eid E1. obind_inv H as parts E2. obind_inv H as a1 E3.
  obind_inv H as eid1 E4. obind_inv H as attrs E5. obind_inv H as fname E6.
  exists (mkEntity eid1 fname a1).
  split.
  { eapply projection_ret;
      [exact E4 | exact E5 | exact E6 | exact E1 | exact E2 | exact E3]. }
  set (e := mkEntity eid1 fname a1) in *.
  unfold dict_setdefault in H.
  destruct (dict_get a1 g) as [l|] eqn:Eg; inversion H; subst g'; clear H.
  - split; [|now apply concat_set_present].
    intros prior [Hnd Hget]. split; [now apply dict_set_nodup|].
    intros k. rewrite group_of_snoc. cbn [domain e].
    destruct (String.eqb a1 k) eqn:Ek.
    + apply String.eqb_eq in Ek. subst k. rewrite dict_get_set_same.
      specialize (Hget a1). rewrite Eg in Hget.
      destruct (group_of a1 prior) as [|x xs]; [discriminate|].
      inversion Hget. reflexivity.
    + apply String.eqb_neq in Ek.
      rewrite dict_get_set_other by congruence.
      rewrite app_nil_r. apply Hget.
  - split.
    + intros prior [Hnd Hget]. split; [now do 2 apply dict_set_nodup|].
      intros k. rewrite group_of_snoc. cbn [domain e].
      destruct (String.eqb a1 k) eqn:Ek.
      * apply String.eqb_eq in Ek. subst k. rewrite dict_get_set_same.
        specialize (Hget a1). rewrite Eg in Hget.
        destruct (group_of a1 prior) as [|x xs]; [reflexivity|discriminate].
      * apply String.eqb_neq in Ek.
        rewrite !dict_get_set_other by congruence.
        rewrite app_nil_r. apply Hget.
    + eapply Permutation_trans.
      * apply (@concat_set_present _ a1 [] [e]). apply dict_get_set_same.
      * rewrite dict_set_absent by assumption.
        rewrite map_app, concat_app. cbn. rewrite !app_nil_r. reflexivity.
Qed.

Lemma group_loop_spec (items : list pyval) :
  forall g g',
    group_loop g items = Ret g' ->
    exists ents,
      Forall2 projects items ents /\
      (forall prior, grouping g prior -> grouping g' (prior ++ ents)) /\
      Permutation (concat (map snd g')) (concat (map snd g) ++ ents).
Proof.
  induction items as [|item rest IH]; intros g g' H; cbn [group_loop] in H.
  - inversion H; subst g'. exists []. split; [constructor|].
    split; [intros prior; now rewrite app_nil_r|now rewrite app_nil_r].
  - obind_inv H as g1 E.
    apply group_step_spec in E as (e & Hp & Hg & Hperm).
    apply IH in H as (ents & Hps & Hgs & Hperms).
    exists (e :: ents). split; [now constructor|]. split.
    + intros prior Hprior.
      change (e :: ents) with ([e] ++ ents). rewrite app_assoc. auto.
    + eapply Permutation_trans; [exact Hperms|].
      change (e :: ents) with ([e] ++ ents). rewrite app_assoc.
      now apply Permutation_app_tail.
Qed.

(** ** The monad of the methods *)

Lemma bind_ret_inv (A B : Type) (m : M A) (k : A -> M B) (st st' : state) (b : B) :
  bind m k st = (Ret b, st') ->
  exists a st1, m st = (Ret a, st1) /\ k a st1 = (Ret b, st').
Proof.
  unfold bind. destruct (m st) as [[a|e] st1]; [eauto|discriminate].
Qed.

Lemma emit_ret_inv (em : emitter) (ev : event) (st st' : state) (u : unit) :
  emit em ev st = (Ret u, st') ->
  exists f, em = Some f /\ f (emitted st) ev = None /\
            st' = {| self := self st; emitted := emitted st ++ [ev];
                     sent := sent st |}.
Proof.
  unfold emit. destruct em as [f|]; [|discriminate].
  destruct (f (emitted st) ev) eqn:E; [discriminate|].
  intros H. inversion H. eauto.
Qed.

Lemma lift_ret_inv (A : Type) (o : outcome A) (st st' : state) (a : A) :
  lift o st = (Ret a, st') -> o = Ret a /\ st' = st.
Proof. unfold lift, thrown. destruct o; intros H; inversion H. auto. Qed.

Lemma perform_ret_inv (requests : http) (r : request) (st st' : state)
      (response : Response) :
  perform requests r st = (Ret response, st') ->
  requests r = Ret response /\
  st' = {| self := self st; emitted := emitted st; sent := sent st ++ [r] |}.
Proof.
  unfold perform, thrown. destruct (requests r); intros H; inversion H. auto.
Qed.

Lemma emit_never_raises (em : emitter) (ev : event) (st : state) :
  never_raises em ->
  emit em ev st =
  (Ret tt, {| self := self st; emitted := emitted st ++ [ev]; sent := sent st |}).
Proof. intros (f & -> & Hf). unfold emit. now rewrite Hf. Qed.

Lemma try_except_ret (A : Type) (body : M A) (handler : exn -> M A)
      (st st' : state) (a : A) :
  body st = (Ret a, st') -> try_except body handler st = (Ret a, st').
Proof. unfold try_except. now intros ->. Qed.

Lemma try_except_inv (A : Type) (body : M A) (handler : exn -> M A)
      (st st' : state) (a : A) :
  try_except body handler st = (Ret a, st') ->
  body st = (Ret a, st') \/
  exists (e : exn) st1,
    body st = (Raise (AnException e), st1) /\ handler e st1 = (Ret a, st').
Proof.
  unfold try_except. destruct (body st) as [[x|[e|b]] st1]; intros H.
  - left. exact H.
  - right. eauto.
  - discriminate H.
Qed.

(** Steps through [x <- m ;; k] in a hypothesis that the whole returns. *)
Tactic Notation "bind_inv" hyp(H) "as" ident(a) ident(st1) ident(E) :=
  apply bind_ret_inv in H as (a & st1 & E & H).

(** Steps through [emit em ev ;;; k]: the callback accepted [ev]. *)
Tactic Notation "emit_inv" hyp(H) "as" ident(st1) :=
  let u := fresh "u" in
  let E := fresh "E" in
  let f := fresh "f" in
  let Hf := fresh "Haccept" in
  apply bind_ret_inv in H as (u & st1 & E & H);
  apply emit_ret_inv in E as (f & _ & Hf & ->);
  clear Hf; cbn [self emitted sent] in H.

(** A reflexive and transitive relation kept by every step of a method is
    kept by the method. *)
Section Frame.
Variable R : state -> state -> Prop.
Hypothesis R_refl : forall st, R st st.
Hypothesis R_trans : forall a b c, R a b -> R b c -> R a c.

Lemma frame_ret (A : Type) (a : A) : keeps_frame R (ret a).
Proof. intros st. apply R_refl. Qed.

Lemma frame_lift (A : Type) (o : outcome A) : keeps_frame R (lift o).
Proof. intros st. apply R_refl. Qed.

Lemma frame_get_valves : keeps_frame R get_valves.
Proof. intros st. apply R_refl. Qed.

Lemma frame_bind (A B : Type) (m : M A) (k : A -> M B) :
  keeps_frame R m -> (forall a, keeps_frame R (k a)) -> keeps_frame R (bind m k).
Proof.
  intros Hm Hk st. unfold bind. specialize (Hm st).
  destruct (m st) as [[a|e] st1]; cbn [snd] in *; [|exact Hm].
  eapply R_trans; [exact Hm|apply Hk].
Qed.

Lemma frame_try_except (A : Type) (body : M A) (handler : exn -> M A) :
  keeps_frame R body -> (forall e, keeps_frame R (handler e)) ->
  keeps_frame R (try_except body handler).
Proof.
  intros Hm Hk st. unfold try_except. specialize (Hm st).
  destruct (body st) as [[a|[e|b]] st1]; cbn [snd] in *;
    [exact Hm| |exact Hm].
  eapply R_trans; [exact Hm|apply Hk].
Qed.

Lemma frame_if (A : Type) (b : bool) (m1 m2 : M A) :
  keeps_frame R m1 -> keeps_frame R m2 -> keeps_frame R (if b then m1 else m2).
Proof. now destruct b. Qed.
End Frame.

(** ** Domain discovery *)

Lemma get_valves_inv (st st' : state) (v : Valves) :
  get_valves st = (Ret v, st') -> v = valves (self st) /\ st' = st.
Proof. unfold get_valves. intros H. inversion H. auto. Qed.

Lemma cache_setitem_inv (k : string) (l : list Entity) (st st' : state) (u : unit) :
  cache_setitem k l st = (Ret u, st') ->
  st' = {| self := {| valves := valves (self st);
                      entity_cache := dict_set k l (entity_cache (self st));
                      citation := citation (self st) |};
           emitted := emitted st; sent := sent st |}.
Proof. unfold cache_setitem. intros H. inversion H. auto. Qed.

(** What a returning body of [getEntitiesByDomain] went through. *)
Lemma getEntitiesByDomain_try_ret (requests : http) (dom : string)
      (em : emitter) (st st' : state) (r : discovery) :
  getEntitiesByDomain_try requests dom em st = (Ret r, st') ->
  exists response,
    requests (states_request st) = Ret response /\
    ((status_code response <> 200%Z /\ (exists msg, r = Errors [msg]) /\
      self st' = self st) \/
     (status_code response = 200%Z /\
      exists all_states items ents,
        response_json response = Ret all_states /\
        iterate all_states = Ret items /\
        comprehension dom items = Ret ents /\
        r = Entities ents /\
        self st' = {| valves := valves (self st);
                      entity_cache := dict_set dom ents (entity_cache (self st));
                      citation := citation (self st) |})).
Proof.
  unfold getEntitiesByDomain_try. intros H.
  emit_inv H as st1.
  bind_inv H as v st2 Ev. apply get_valves_inv in Ev as [-> ->]. cbn [self] in H.
  bind_inv H as response st3 Er. apply perform_ret_inv in Er as [Er ->].
  exists response. split; [exact Er|].
  destruct (status_code response =? 200)%Z eqn:Ecode; cbn [negb] in H.
  - right. apply Z.eqb_eq in Ecode. split; [exact Ecode|].
    bind_inv H as all_states st4 E1. apply lift_ret_inv in E1 as [E1 ->].
    bind_inv H as items st5 E2. apply lift_ret_inv in E2 as [E2 ->].
    bind_inv H as ents st6 E3. apply lift_ret_inv in E3 as [E3 ->].
    bind_inv H as w st7 E4. apply cache_setitem_inv in E4 as ->.
    cbn [self emitted sent] in H.
    emit_inv H as st8. emit_inv H as st9. emit_inv H as st10.
    inversion H; subst. cbn [self].
    exists all_states, items, ents. auto.
  - left. apply Z.eqb_neq in Ecode. split; [exact Ecode|].
    emit_inv H as st4. inversion H; subst. cbn [self]. eauto.
Qed.

(** A call that returns entities returned them from the body. *)
Lemma getEntitiesByDomain_entities (requests : http) (dom : string)
      (em : emitter) (st st' : state) (ents : list Entity) :
  getEntitiesByDomain requests dom em st = (Ret (Entities ents), st') ->
  getEntitiesByDomain_try requests dom em st = (Ret (Entities ents), st').
Proof.
  intros H. apply try_except_inv in H as [H|(e & st1 & _ & H)]; [exact H|].
  unfold getEntitiesByDomain_except in H.
  emit_inv H as st2. inversion H.
Qed.

Lemma getEntitiesByDomain_success (requests : http) (dom : string)
      (em : emitter) (st st' : state) (ents : list Entity) :
  getEntitiesByDomain requests dom em st = (Ret (Entities ents), st') ->
  exists response all_states items,
    requests (states_request st) = Ret response /\
    status_code response = 200%Z /\
    response_json response = Ret all_states /\
    iterate all_states = Ret items /\
    comprehension dom items = Ret ents /\
    entity_cache (self st') = dict_set dom ents (entity_cache (self st)).
Proof.
  intros H. apply getEntitiesByDomain_entities in H.
  apply getEntitiesByDomain_try_ret in H
    as (response & Hreq & [(_ & (msg & Hmsg) & _)|(Hcode & Hok)]);
    [discriminate|].
  destruct Hok as (all_states & items & ents' & H1 & H2 & H3 & H4 & H5).
  inversion H4; subst ents'.
  exists response, all_states, items. rewrite H5. cbn. auto 10.
Qed.

Lemma kept_entities (dom : string) (items : list pyval) (ents : list Entity) :
  Forall2 projects (filter (keeps dom) items) ents ->
  Forall (fun e => exists s,
              entity_id e = PStr s /\
              startswith s (dom ++ ".") = true /\
              domain e = before_first_dot s /\
              (has_dot dom = false -> domain e = dom)) ents.
Proof.
  intros H.
  assert (Hk : Forall (fun item => keeps dom item = true) (filter (keeps dom) items)).
  { apply Forall_forall. intros x Hx. now apply filter_In in Hx. }
  induction H as [|item e kept ents Hp _ IH]; constructor.
  - inversion Hk as [|? ? Hitem _]; subst.
    destruct (@projects_keeps dom _ _ Hp Hitem) as (s & Hid & Hs).
    destruct (@projects_domain _ _ Hp) as (s' & Hid' & Hdom).
    rewrite Hid in Hid'. inversion Hid'; subst s'.
    exists s. repeat split; auto.
    intros Hdot. rewrite Hdom. now apply startswith_before_first_dot.
  - apply IH. now inversion Hk.
Qed.

(** C1, as amended.  Every entity returned by a successful
    [getEntitiesByDomain dom] comes from an upstream state object whose
    [entity_id] starts with [dom] followed by a dot, and exactly those
    objects are kept; its [domain] field is the prefix of its [entity_id]
    before the first dot; and that field equals the requested [dom] whenever
    [dom] itself contains no dot. *)
Theorem getEntitiesByDomain_domain_field (requests : http) (dom : string)
        (em : emitter) (st st' : state) (ents : list Entity) :
  getEntitiesByDomain requests dom em st = (Ret (Entities ents), st') ->
  exists response all_states items,
    requests (states_request st) = Ret response /\
    status_code response = 200%Z /\
    response_json response = Ret all_states /\
    iterate all_states = Ret items /\
    Forall2 projects (filter (keeps dom) items) ents /\
    Forall (fun e => exists s,
                entity_id e = PStr s /\
                startswith s (dom ++ ".") = true /\
                domain e = before_first_dot s /\
                (has_dot dom = false -> domain e = dom)) ents.
Proof.
  intros H.
  apply getEntitiesByDomain_success in H
    as (response & all_states & items & H1 & H2 & H3 & H4 & H5 & _).
  apply comprehension_spec in H5.
  exists response, all_states, items.
  repeat split; auto. now apply kept_entities with (items := items).
Qed.

Lemma getEntitiesByDomain_domain_field_witness :
  getEntitiesByDomain (replies 200 "" two_states) "light" quiet fresh =
  (Ret (Entities [mkEntity (PStr "light.a") (PStr "A") "light"]),
   snd (getEntitiesByDomain (replies 200 "" two_states) "light" quiet fresh)) /\
  exists response all_states items,
    replies 200 "" two_states
            (states_request fresh) =
    Ret response /\
    status_code response = 200%Z /\
    response_json response = Ret all_states /\
    iterate all_states = Ret items /\
    Forall2 projects (filter (keeps "light") items)
            [mkEntity (PStr "light.a") (PStr "A") "light"] /\
    Forall (fun e => exists s,
                entity_id e = PStr s /\
                startswith s ("light" ++ ".") = true /\
                domain e = before_first_dot s /\
                (has_dot "light" = false -> domain e = "light"))
           [mkEntity (PStr "light.a") (PStr "A") "light"].
Proof.
  split; [reflexivity|].
  apply (@getEntitiesByDomain_domain_field
           (replies 200 "" two_states) "light" quiet fresh
           (snd (getEntitiesByDomain (replies 200 "" two_states) "light" quiet fresh))
           [mkEntity (PStr "light.a") (PStr "A") "light"]).
  reflexivity.
Defined.

(** C1, as stated, fails when the requested domain contains a dot: asking
    for ["a.b"] keeps the state ["a.b.c"], whose [domain] field is ["a"]. *)
Lemma getEntitiesByDomain_dotted_domain :
  ~ (forall (requests : http) (dom : string) (em : emitter) (st st' : state)
            (ents : list Entity),
        getEntitiesByDomain requests dom em st = (Ret (Entities ents), st') ->
        Forall (fun e => domain e = dom /\
                         exists s, entity_id e = PStr s /\
                                   domain e = before_first_dot s) ents).
Proof.
  intros H.
  specialize (H (replies 200 "" dotted_states) "a.b" quiet fresh
                (snd (getEntitiesByDomain (replies 200 "" dotted_states) "a.b"
                                          quiet fresh))
                [mkEntity (PStr "a.b.c") (PStr "unknown") "a"] eq_refl).
  inversion H as [|? ? [Hd _] _]. discriminate Hd.
Qed.

(** ** Full discovery *)

Lemma same_self_refl (st : state) : same_self st st.
Proof. reflexivity. Qed.

Lemma same_self_trans (a b c : state) :
  same_self a b -> same_self b c -> same_self a c.
Proof. unfold same_self. congruence. Qed.

Lemma emit_same_self (em : emitter) (ev : event) :
  keeps_frame same_self (emit em ev).
Proof.
  intros st. unfold emit, same_self.
  destruct em as [f|]; [|reflexivity].
  now destruct (f (emitted st) ev).
Qed.

Lemma perform_same_self (requests : http) (r : request) :
  keeps_frame same_self (perform requests r).
Proof. intros st. reflexivity. Qed.

Lemma for_each_frame (R : state -> state -> Prop) (A : Type) (l : list A)
      (body : A -> M unit) :
  (forall st, R st st) ->
  (forall a b c, R a b -> R b c -> R a c) ->
  (forall x, keeps_frame R (body x)) ->
  keeps_frame R (for_each l body).
Proof.
  intros Hrefl Htrans Hbody. induction l as [|x l IH]; cbn [for_each fold_right].
  - now apply frame_ret.
  - apply frame_bind; auto.
Qed.

(** What a returning body of [getAllEntities] went through after a 200. *)
Lemma getAllEntities_try_ret (requests : http) (em : emitter) (st st' : state)
      (response : Response) (grouped : pydict (list Entity)) :
  requests (states_request st) = Ret response ->
  status_code response = 200%Z ->
  getAllEntities_try requests em st = (Ret grouped, st') ->
  exists all_states items,
    response_json response = Ret all_states /\
    iterate all_states = Ret items /\
    group_loop [] items = Ret grouped /\
    self st' = {| valves := valves (self st); entity_cache := grouped;
                  citation := citation (self st) |}.
Proof.
  unfold getAllEntities_try. intros Hreq Hcode H.
  emit_inv H as st1.
  bind_inv H as v st2 Ev. apply get_valves_inv in Ev as [-> ->]. cbn [self] in H.
  bind_inv H as response' st3 Er. apply perform_ret_inv in Er as [Er ->].
  unfold states_request, url_states in Hreq. rewrite Hreq in Er.
  inversion Er; subst response'.
  rewrite Hcode in H. cbn [Z.eqb Pos.eqb negb] in H.
  bind_inv H as all_states st4 E1. apply lift_ret_inv in E1 as [E1 ->].
  bind_inv H as items st5 E2. apply lift_ret_inv in E2 as [E2 ->].
  bind_inv H as g st6 E3. apply lift_ret_inv in E3 as [E3 ->].
  bind_inv H as w st7 E4. unfold cache_assign in E4. inversion E4; subst st7.
  bind_inv H as w' st8 E5.
  assert (Hframe : self st8 = self
            {| self := {| valves := valves (self st); entity_cache := g;
                          citation := citation (self st) |};
               emitted := emitted st ++ [Status [Lit "Querying all entities"] false];
               sent := sent st ++
                       [Get (ha_url (valves (self st)) ++ "/api/states")
                            (auth_headers (valves (self st)))] |}).
  { match type of E5 with
    | for_each ?l ?b ?s = _ =>
        pose proof (@for_each_frame same_self _ l b same_self_refl
                      same_self_trans (fun kv => emit_same_self em _) s) as F
    end.
    rewrite E5 in F. exact F. }
  cbn [self] in Hframe.
  bind_inv H as w'' st9 E6.
  pose proof (emit_same_self em (Status [Lit "Full discovery complete"] true) st8)
    as Hframe'.
  rewrite E6 in Hframe'. unfold same_self in Hframe'. cbn [snd] in Hframe'.
  inversion H; subst.
  exists all_states, items. rewrite Hframe', Hframe. auto.
Qed.

Lemma Forall2_in_right (A B : Type) (P : A -> B -> Prop) (l : list A)
      (l' : list B) (y : B) :
  Forall2 P l l' -> In y l' -> exists x, In x l /\ P x y.
Proof.
  induction 1 as [|a b l l' Hab _ IH]; cbn [In]; [tauto|].
  intros [<-|Hin].
  - exists a. auto.
  - destruct (IH Hin) as (x & Hx & Hp). exists x. auto.
Qed.

Lemma grouping_bound (g : pydict (list Entity)) (ents : list Entity)
      (k : string) (es : list Entity) :
  grouping g ents -> In (k, es) g -> es = group_of k ents /\ es <> [].
Proof.
  intros [Hnd Hget] Hin.
  apply dict_get_in in Hin; [|exact Hnd].
  rewrite Hget in Hin.
  destruct (group_of k ents) as [|x xs]; [discriminate|].
  inversion Hin. split; [reflexivity|discriminate].
Qed.

Lemma grouping_covers (g : pydict (list Entity)) (ents : list Entity) (e : Entity) :
  grouping g ents -> In e ents ->
  exists es, dict_get (domain e) g = Some es /\ In e es.
Proof.
  intros [_ Hget] Hin.
  assert (Hmem : In e (group_of (domain e) ents)).
  { apply filter_In. split; [exact Hin|apply String.eqb_refl]. }
  rewrite Hget.
  destruct (group_of (domain e) ents) as [|x xs]; [contradiction|].
  eauto.
Qed.

(** C2.  After a 200 answer, a returning [getAllEntities] body returns a
    partition of the upstream state objects: the keys are distinct, every
    group is non-empty and holds entities whose [domain], the prefix of
    their [entity_id] before the first dot, is the key; every entity is in
    the group of its domain; and the groups together are a permutation of
    the projected input, nothing lost and nothing duplicated. *)
Theorem getAllEntities_partition (requests : http) (em : emitter)
        (st st' : state) (response : Response) (grouped : pydict (list Entity)) :
  requests (states_request st) = Ret response ->
  status_code response = 200%Z ->
  getAllEntities_try requests em st = (Ret grouped, st') ->
  getAllEntities requests em st = (Ret grouped, st') /\
  exists all_states items ents,
    response_json response = Ret all_states /\
    iterate all_states = Ret items /\
    Forall2 projects items ents /\
    NoDup (dict_keys grouped) /\
    (forall k es, In (k, es) grouped ->
       es <> [] /\
       Forall (fun e => exists s, entity_id e = PStr s /\
                                  before_first_dot s = k /\ domain e = k) es) /\
    (forall e, In e ents ->
       exists es, dict_get (domain e) grouped = Some es /\ In e es) /\
    Permutation (concat (map snd grouped)) ents.
Proof.
  intros Hreq Hcode H. split; [now apply try_except_ret|].
  destruct (getAllEntities_try_ret _ _ _ _ _ _ Hreq Hcode H)
    as (all_states & items & H1 & H2 & H3 & _).
  apply group_loop_spec in H3 as (ents & Hproj & Hgrp & Hperm).
  specialize (Hgrp [] grouping_nil). cbn [app] in Hgrp, Hperm.
  exists all_states, items, ents.
  repeat split; auto.
  - apply Hgrp.
  - now destruct (grouping_bound _ _ _ _ Hgrp H0).
  - destruct (grouping_bound _ _ _ _ Hgrp H0) as [-> _].
    apply Forall_forall. intros e He. apply filter_In in He as [He Hk].
    apply String.eqb_eq in Hk.
    destruct (Forall2_in_right _ _ _ _ _ _ Hproj He) as (item & _ & Hp).
    destruct (@projects_domain _ _ Hp) as (s & Hid & Hdom).
    exists s. repeat split; congruence.
  - intros e He. now apply grouping_covers with (ents := ents).
Qed.

Lemma getAllEntities_partition_witness :
  let requests := replies 200 "" three_states in
  let grouped :=
    [("light", [mkEntity (PStr "light.a") (PStr "A") "light";
                mkEntity (PStr "light.c") (PStr "unknown") "light"]);
     ("switch", [mkEntity (PStr "switch.b") (PStr "unknown") "switch"])] in
  getAllEntities_try requests quiet fresh =
  (Ret grouped, snd (getAllEntities_try requests quiet fresh)) /\
  NoDup (dict_keys grouped) /\
  exists ents, Permutation (concat (map snd grouped)) ents /\ length ents = 3.
Proof.
  intros requests grouped.
  assert (Hrun : getAllEntities_try requests quiet fresh =
                 (Ret grouped, snd (getAllEntities_try requests quiet fresh)))
    by reflexivity.
  split; [exact Hrun|].
  destruct (@getAllEntities_partition requests quiet fresh _
              {| status_code := 200; response_text := "";
                 response_json := Ret three_states |}
              grouped eq_refl eq_refl Hrun)
    as (_ & all_states & items & ents & H1 & H2 & Hproj & Hnd & _ & _ & Hperm).
  split; [exact Hnd|].
  exists ents. split; [exact Hperm|].
  inversion H1; subst all_states. inversion H2; subst items.
  apply Forall2_length in Hproj. now rewrite <- Hproj.
Defined.

(** C9.  Discovery keeps the upstream order: the entities returned by
    [getEntitiesByDomain] are, one for one and in order, the projections of
    the kept state objects in the order of the upstream array; and every
    group of [getAllEntities] lists the entities of its domain in the order
    of the upstream array. *)
Theorem discovery_preserves_order (requests : http) (em : emitter)
        (st st' : state) :
  (forall dom ents,
      getEntitiesByDomain requests dom em st = (Ret (Entities ents), st') ->
      exists response all_states items,
        requests (states_request st) =
        Ret response /\
        response_json response = Ret all_states /\
        iterate all_states = Ret items /\
        Forall2 projects (filter (keeps dom) items) ents) /\
  (forall response grouped,
      requests (states_request st) =
      Ret response ->
      status_code response = 200%Z ->
      getAllEntities_try requests em st = (Ret grouped, st') ->
      exists all_states items ents,
        response_json response = Ret all_states /\
        iterate all_states = Ret items /\
        Forall2 projects items ents /\
        forall k es, In (k, es) grouped -> es = group_of k ents).
Proof.
  split.
  - intros dom ents H.
    apply getEntitiesByDomain_success in H
      as (response & all_states & items & H1 & H2 & H3 & H4 & H5 & _).
    apply comprehension_spec in H5.
    exists response, all_states, items. auto.
  - intros response grouped Hreq Hcode H.
    destruct (getAllEntities_try_ret _ _ _ _ _ _ Hreq Hcode H)
      as (all_states & items & H1 & H2 & H3 & _).
    apply group_loop_spec in H3 as (ents & Hproj & Hgrp & _).
    specialize (Hgrp [] grouping_nil). cbn [app] in Hgrp.
    exists all_states, items, ents. repeat split; auto.
    intros k es Hin. now destruct (grouping_bound _ _ _ _ Hgrp Hin).
Qed.

Lemma discovery_preserves_order_witness :
  let requests := replies 200 "" three_states in
  let a := mkEntity (PStr "light.a") (PStr "A") "light" in
  let b := mkEntity (PStr "switch.b") (PStr "unknown") "switch" in
  let c := mkEntity (PStr "light.c") (PStr "unknown") "light" in
  (getEntitiesByDomain requests "light" quiet fresh =
   (Ret (Entities [a; c]),
    snd (getEntitiesByDomain requests "light" quiet fresh)) /\
   exists response all_states items,
     requests (states_request fresh) =
     Ret response /\
     response_json response = Ret all_states /\
     iterate all_states = Ret items /\
     Forall2 projects (filter (keeps "light") items) [a; c]) /\
  (getAllEntities_try requests quiet fresh =
   (Ret [("light", [a; c]); ("switch", [b])],
    snd (getAllEntities_try requests quiet fresh)) /\
   exists all_states items ents,
     response_json (mkResponse 200 "" (Ret three_states)) = Ret all_states /\
     iterate all_states = Ret items /\
     Forall2 projects items ents /\
     forall k es, In (k, es) [("light", [a; c]); ("switch", [b])] ->
                  es = group_of k ents).
Proof.
  intros requests a b c. split.
  - split; [reflexivity|].
    apply (proj1 (discovery_preserves_order requests quiet fresh
                    (snd (getEntitiesByDomain requests "light" quiet fresh)))
                 "light" [a; c]).
    reflexivity.
  - split; [reflexivity|].
    apply (proj2 (discovery_preserves_order requests quiet fresh
                    (snd (getAllEntities_try requests quiet fresh)))
                 (mkResponse 200 "" (Ret three_states))
                 [("light", [a; c]); ("switch", [b])]);
      reflexivity.
Defined.

(** ** Commands *)

Lemma controlEntity_try_ret (requests : http) (entityID dom service : string)
      (em : emitter) (st st' : state) (r : text) :
  controlEntity_try requests entityID dom service em st = (Ret r, st') ->
  exists response,
    requests (command_request st dom service
                (PDict [("entity_id", PStr entityID)])) = Ret response /\
    r = json_dumps
          (PDict [("success", PBool (status_code response =? 200)%Z);
                  ("status_code", PInt (status_code response));
                  ("entity", PStr entityID);
                  ("service", PStr service);
                  ("request_url", PStr (url_service st dom service));
                  ("request_payload", PDict [("entity_id", PStr entityID)]);
                  ("response", PStr (response_text response))]).
Proof.
  unfold controlEntity_try. intros H.
  emit_inv H as st1.
  bind_inv H as v st2 Ev. apply get_valves_inv in Ev as [-> ->]. cbn [self] in H.
  emit_inv H as st3.
  bind_inv H as response st4 Er. apply perform_ret_inv in Er as [Er ->].
  emit_inv H as st5. emit_inv H as st6.
  bind_inv H as request_payload st7 El. apply lift_ret_inv in El as [El ->].
  cbn in El. inversion El; subst request_payload.
  inversion H; subst.
  exists response. split; [exact Er|reflexivity].
Qed.

Lemma setEntityAttribute_try_ret (requests : http)
      (entity_id dom service : string) (data : pydict pyval)
      (em : emitter) (st st' : state) (r : text) :
  setEntityAttribute_try requests entity_id dom service data em st = (Ret r, st') ->
  exists response,
    requests (command_request st dom service
                (PDict (payload_dict entity_id data))) = Ret response /\
    r = json_dumps
          (PDict [("success", PBool (status_code response =? 200)%Z);
                  ("status_code", PInt (status_code response));
                  ("entity", PStr entity_id);
                  ("domain", PStr dom);
                  ("service", PStr service);
                  ("payload", PDict (payload_dict entity_id data));
                  ("response", PStr (response_text response))]).
Proof.
  unfold setEntityAttribute_try. intros H.
  emit_inv H as st1.
  bind_inv H as v st2 Ev. apply get_valves_inv in Ev as [-> ->]. cbn [self] in H.
  emit_inv H as st3.
  bind_inv H as response st4 Er. apply perform_ret_inv in Er as [Er ->].
  emit_inv H as st5. emit_inv H as st6.
  inversion H; subst.
  exists response. split; [exact Er|reflexivity].
Qed.

Lemma eqb_200_true (n : Z) : (n =? 200)%Z = true <-> n = 200%Z.
Proof. apply Z.eqb_eq. Qed.

(** C3.  When the body of [controlEntity] or of [setEntityAttribute]
    completes without an exception, the call returns the JSON record built
    from the upstream response, and the [success] field of that record is
    true if and only if the status code is exactly 200. *)
Theorem success_iff_status_200 (requests : http) (em : emitter)
        (st st' : state) (r : text) :
  (forall entityID dom service,
      controlEntity_try requests entityID dom service em st = (Ret r, st') ->
      controlEntity requests entityID dom service em st = (Ret r, st') /\
      exists response,
        requests (command_request st dom service
                    (PDict [("entity_id", PStr entityID)])) = Ret response /\
        reports r response) /\
  (forall entity_id dom service data,
      setEntityAttribute_try requests entity_id dom service data em st =
      (Ret r, st') ->
      setEntityAttribute requests entity_id dom service data em st =
      (Ret r, st') /\
      exists response,
        requests (command_request st dom service
                    (PDict (payload_dict entity_id data))) = Ret response /\
        reports r response).
Proof.
  split.
  - intros entityID dom service H. split; [now apply try_except_ret|].
    apply controlEntity_try_ret in H as (response & Hreq & ->).
    exists response. split; [exact Hreq|].
    eexists _, (status_code response =? 200)%Z.
    repeat split; try reflexivity; apply eqb_200_true.
  - intros entity_id dom service data H. split; [now apply try_except_ret|].
    apply setEntityAttribute_try_ret in H as (response & Hreq & ->).
    exists response. split; [exact Hreq|].
    eexists _, (status_code response =? 200)%Z.
    repeat split; try reflexivity; apply eqb_200_true.
Qed.

Lemma success_iff_status_200_witness :
  let created := replies 201 "[]" (PList []) in
  let st' := snd (controlEntity_try created "light.a" "light" "turn_on" quiet fresh) in
  let t :=
    json_dumps
      (PDict [("success", PBool false);
              ("status_code", PInt 201);
              ("entity", PStr "light.a");
              ("service", PStr "turn_on");
              ("request_url",
               PStr "http://ha.local:8123/api/services/light/turn_on");
              ("request_payload", PDict [("entity_id", PStr "light.a")]);
              ("response", PStr "[]")]) in
  controlEntity_try created "light.a" "light" "turn_on" quiet fresh = (Ret t, st') /\
  controlEntity created "light.a" "light" "turn_on" quiet fresh = (Ret t, st') /\
  exists response,
    created (command_request fresh "light" "turn_on"
               (PDict [("entity_id", PStr "light.a")])) = Ret response /\
    reports t response.
Proof.
  intros created st' t. split; [reflexivity|].
  apply (proj1 (success_iff_status_200 created quiet fresh st' t)
               "light.a" "light" "turn_on").
  reflexivity.
Defined.

Lemma dict_get_update (V : Type) (k : string) (extra : pydict V) :
  NoDup (dict_keys extra) ->
  forall base,
    dict_get k (dict_update base extra) =
    match dict_get k extra with
    | Some v => Some v
    | None => dict_get k base
    end.
Proof.
  unfold dict_update.
  induction extra as [|[k1 v1] rest IH]; intros Hnd base; [reflexivity|].
  cbn [fold_left fst snd dict_get].
  inversion Hnd as [|? ? Hnotin Hnd']; subst.
  rewrite IH by exact Hnd'.
  destruct (String.eqb k k1) eqn:E.
  - apply String.eqb_eq in E. subst k1.
    apply dict_get_none_keys in Hnotin. rewrite Hnotin.
    apply dict_get_set_same.
  - apply String.eqb_neq in E.
    now rewrite dict_get_set_other by exact E.
Qed.

Lemma dict_update_nodup (V : Type) (extra base : pydict V) :
  NoDup (dict_keys base) -> NoDup (dict_keys (dict_update base extra)).
Proof.
  unfold dict_update. revert base.
  induction extra as [|[k1 v1] rest IH]; intros base Hnd; [exact Hnd|].
  cbn [fold_left]. apply IH. now apply dict_set_nodup.
Qed.

(** C5.  The body [setEntityAttribute] posts is the JSON text of the
    caller's [data] with the key [entity_id] added: every other key reads
    as in [data], and [entity_id] reads as the caller's value when [data]
    has that key, as the [entity_id] argument otherwise.  No other request
    is handed to the HTTP layer, and with a callback that never raises
    exactly this one is. *)
Theorem setEntityAttribute_payload (requests : http)
        (entity_id dom service : string) (data : pydict pyval)
        (em : emitter) (st : state) :
  NoDup (dict_keys data) ->
  let body := payload_dict entity_id data in
  let st' := snd (setEntityAttribute requests entity_id dom service data em st) in
  NoDup (dict_keys body) /\
  (forall k,
      dict_get k body =
      if String.eqb k "entity_id"
      then Some (match dict_get "entity_id" data with
                 | Some v => v
                 | None => PStr entity_id
                 end)
      else dict_get k data) /\
  sends (fun r => r = command_request st dom service (PDict body)) st st' /\
  (never_raises em ->
   sent st' = sent st ++ [command_request st dom service (PDict body)]).
Proof.
  intros Hnd body st'. split; [|split; [|split]].
  - apply dict_update_nodup. cbn. constructor; [tauto|constructor].
  - intros k. unfold body, payload_dict. rewrite dict_get_update by exact Hnd.
    cbn [dict_get].
    destruct (String.eqb k "entity_id") eqn:E.
    + apply String.eqb_eq in E. subst k. now destruct (dict_get "entity_id" data).
    + now destruct (dict_get k data).
  - subst st'. unfold sends, setEntityAttribute, try_except,
      setEntityAttribute_try, command_except, bind, emit, get_valves, perform,
      thrown, ret.
    destruct em as [f|]; cbn [fst snd self emitted sent].
    2:{ exists []. rewrite app_nil_r. auto. }
    repeat match goal with
           | |- context [match f ?l ?ev with _ => _ end] =>
               destruct (f l ev) as [[?|?]|]; cbn [fst snd self emitted sent]
           | |- context [match requests ?r with _ => _ end] =>
               destruct (requests r); cbn [fst snd self emitted sent]
           end;
      first [ exists []; rewrite app_nil_r; split; [reflexivity|constructor]
            | eexists [_]; split; [reflexivity|];
              constructor; [reflexivity|constructor] ].
  - intros (f & -> & Hf). subst st'.
    unfold setEntityAttribute, try_except, setEntityAttribute_try,
      command_except, bind, emit, get_valves, perform, thrown, ret.
    rewrite !Hf. cbn [fst snd self emitted sent].
    destruct (requests _); cbn [fst snd self emitted sent];
      rewrite !Hf; reflexivity.
Qed.

Lemma setEntityAttribute_payload_witness :
  let data := [("brightness_pct", PInt 40); ("entity_id", PStr "light.z")] in
  let hub := replies 200 "[]" (PList []) in
  NoDup (dict_keys data) /\
  payload_dict "light.a" data =
  [("entity_id", PStr "light.z"); ("brightness_pct", PInt 40)] /\
  dict_get "entity_id" (payload_dict "light.a" data) = Some (PStr "light.z") /\
  sent (snd (setEntityAttribute hub "light.a" "light" "turn_on" data quiet fresh)) =
  [command_request fresh "light" "turn_on" (PDict (payload_dict "light.a" data))].
Proof.
  intros data hub.
  assert (Hnd : NoDup (dict_keys data)).
  { cbn. repeat constructor; cbn; intuition discriminate. }
  split; [exact Hnd|]. split; [reflexivity|].
  destruct (setEntityAttribute_payload hub "light.a" "light" "turn_on" data
              quiet fresh Hnd) as (_ & Hget & _ & Hsent).
  split; [now rewrite Hget|].
  apply Hsent. exists (fun _ _ => None). auto.
Defined.

(** ** Exceptions *)

Lemma try_except_handled (A : Type) (em : emitter) (closing : exn -> event)
      (inband : exn -> A) (body : M A) (st : state) :
  handled em closing inband body
          (try_except body
             (fun e => bind (emit em (closing e)) (fun _ => ret (inband e))))
          st.
Proof.
  unfold handled, try_except. split; [|split].
  - intros a st' ->. reflexivity.
  - intros e st1 st2 -> Hemit. unfold bind. rewrite Hemit. reflexivity.
  - intros r st'. destruct (body st) as [[a|[e|b]] st1].
    + split; [discriminate|].
      intros [(b & _ & H)|(e & st0 & H & _)]; discriminate H.
    + unfold bind, ret.
      destruct (emit em (closing e) st1) as [[u|r0] st2] eqn:Hemit; split.
      * discriminate.
      * intros [(b & -> & H)|(e0 & st0 & H & Hemit0)]; [discriminate H|].
        inversion H; subst e0 st0. rewrite Hemit in Hemit0. discriminate Hemit0.
      * intros H. inversion H; subst r0 st2. right. eauto.
      * intros [(b & -> & H)|(e0 & st0 & H & Hemit0)]; [discriminate H|].
        inversion H; subst e0 st0. rewrite Hemit in Hemit0.
        inversion Hemit0. reflexivity.
    + split.
      * intros H. inversion H; subst r st1. left. eauto.
      * intros [(b0 & -> & H)|(e0 & st0 & H & _)]; [exact H|discriminate H].
Qed.

(** C4, as amended.  In each of the six operations, whatever the HTTP
    layer and the callback do: a body that returns is the answer of the
    call; an [Exception] raised in the body, by the HTTP layer, by decoding
    or reshaping the answer or by the callback, is caught, the handler
    hands the callback one closing status, and when the callback accepts
    that event the call returns the in-band error value of the operation;
    and the call raises in two cases only, when the body raises an
    exception that is not an [Exception] (a cancellation of the awaited
    callback), which [except Exception] lets through, and when the
    callback raises on the closing status of the handler. *)
Theorem exceptions_are_handled (requests : http) (em : emitter) (st : state) :
  (forall dom,
      handled em exception_occurred
              (fun e => Errors [[Lit ("An error occurred: " ++ exn_str e)]])
              (getEntitiesByDomain_try requests dom em)
              (getEntitiesByDomain requests dom em) st) /\
  handled em exception_occurred (fun _ => [])
          (getAllEntities_try requests em) (getAllEntities requests em) st /\
  (forall entityID dom service,
      handled em error_occurred
              (fun e => json_dumps (PDict [("success", PBool false);
                                           ("error", PStr (exn_str e))]))
              (controlEntity_try requests entityID dom service em)
              (controlEntity requests entityID dom service em) st) /\
  (forall dom,
      handled em error_occurred (fun _ => PList [])
              (getAvailableServicesForDomain_try requests dom em)
              (getAvailableServicesForDomain requests dom em) st) /\
  (forall entity_id,
      handled em error_occurred (fun e => [("error", PStr (exn_str e))])
              (getAttributesForEntity_try requests entity_id em)
              (getAttributesForEntity requests entity_id em) st) /\
  (forall entity_id dom service data,
      handled em error_occurred
              (fun e => json_dumps (PDict [("success", PBool false);
                                           ("error", PStr (exn_str e))]))
              (setEntityAttribute_try requests entity_id dom service data em)
              (setEntityAttribute requests entity_id dom service data em) st).
Proof.
  split; [|split; [|split; [|split; [|split]]]]; intros;
    apply try_except_handled.
Qed.

Lemma exceptions_are_handled_witness :
  let answered := replies 200 "[]" (PList []) in
  fst (getAttributesForEntity unreachable "light.a" quiet fresh) =
  Ret [("error", PStr "Connection refused")] /\
  fst (controlEntity answered "light.a" "light" "turn_on" (cancelled_at 2) fresh) =
  Raise (ABaseException cancelled).
Proof.
  intros answered.
  destruct (exceptions_are_handled unreachable quiet fresh)
    as (_ & _ & _ & _ & Hattr & _).
  destruct (Hattr "light.a") as (_ & Hcaught & _).
  destruct (exceptions_are_handled answered (cancelled_at 2) fresh)
    as (_ & _ & Hcontrol & _).
  destruct (Hcontrol "light.a" "light" "turn_on") as (_ & _ & Hraises).
  split.
  - rewrite (Hcaught (mkExn RequestException "Connection refused")
                     (snd (getAttributesForEntity_try unreachable "light.a"
                                                      quiet fresh))
                     (snd (getAttributesForEntity unreachable "light.a"
                                                  quiet fresh))
                     eq_refl eq_refl).
    reflexivity.
  - rewrite (proj2 (Hraises (ABaseException cancelled)
                            (snd (controlEntity_try answered "light.a" "light"
                                    "turn_on" (cancelled_at 2) fresh)))).
    + reflexivity.
    + left. exists cancelled. split; reflexivity.
Defined.

(** C4, as stated, fails: with the default callback [None] the first
    [emit] raises inside the body, the handler calls the callback again,
    and that second [TypeError] reaches the caller. *)
Lemma exception_escapes_the_handler :
  ~ (forall (requests : http) (em : emitter) (st : state) (entity_id : string),
        returns (getAttributesForEntity requests entity_id em) st).
Proof.
  intros H.
  destruct (H (replies 200 "" (PDict [])) None fresh "light.a") as [r Hr].
  discriminate Hr.
Qed.

(** ** Reading one entity *)

(** C6.  When the hub answers [getAttributesForEntity] with a status other
    than 200, and the callback accepts the events, the call does not raise:
    it emits the opening status and one closing status carrying the code,
    and returns the empty mapping, with no [error] entry. *)
Theorem getAttributesForEntity_non_200 (requests : http) (entity_id : string)
        (em : emitter) (st : state) (response : Response) :
  never_raises em ->
  requests (state_request st entity_id) = Ret response ->
  status_code response <> 200%Z ->
  getAttributesForEntity requests entity_id em st =
  (Ret [],
   after st
     [Status [Lit ("Querying current state of `" ++ entity_id ++ "`")] false;
      Status [Lit "Error: "; StrOf (PInt (status_code response))] true]
     (state_request st entity_id)).
Proof.
  intros Hem Hreq Hcode.
  unfold getAttributesForEntity, try_except, getAttributesForEntity_try, bind.
  rewrite emit_never_raises by exact Hem.
  unfold get_valves, perform, thrown. cbn [self emitted sent].
  unfold state_request in Hreq. rewrite Hreq.
  apply Z.eqb_neq in Hcode. rewrite Hcode. cbn [negb].
  rewrite emit_never_raises by exact Hem.
  unfold ret, after, state_request. cbn [self emitted sent].
  now rewrite <- app_assoc.
Qed.

Lemma getAttributesForEntity_non_200_witness :
  never_raises quiet /\
  getAttributesForEntity (replies 404 "Entity not found." PNone) "light.nope"
                         quiet fresh =
  (Ret [],
   after fresh
     [Status [Lit "Querying current state of `light.nope`"] false;
      Status [Lit "Error: "; StrOf (PInt 404)] true]
     (state_request fresh "light.nope")).
Proof.
  assert (Hq : never_raises quiet) by (exists (fun _ _ => None); auto).
  split; [exact Hq|].
  apply (getAttributesForEntity_non_200
           (replies 404 "Entity not found." PNone) "light.nope" quiet fresh
           (mkResponse 404 "Entity not found." (Ret PNone)) Hq eq_refl).
  discriminate.
Defined.

(** What a returning body of [getAttributesForEntity] went through. *)
Lemma getAttributesForEntity_try_ret (requests : http) (entity_id : string)
      (em : emitter) (st st' : state) (r : pydict pyval) :
  getAttributesForEntity_try requests entity_id em st = (Ret r, st') ->
  exists response,
    requests (state_request st entity_id) = Ret response /\
    ((status_code response <> 200%Z /\ r = []) \/
     (status_code response = 200%Z /\
      exists d,
        response_json response = Ret (PDict d) /\
        r = [("state", match dict_get "state" d with
                       | Some x => x
                       | None => PNone
                       end);
             ("attributes", match dict_get "attributes" d with
                            | Some x => x
                            | None => PDict []
                            end)])).
Proof.
  unfold getAttributesForEntity_try. intros H.
  emit_inv H as st1.
  bind_inv H as v st2 Ev. apply get_valves_inv in Ev as [-> ->]. cbn [self] in H.
  bind_inv H as response st3 Er. apply perform_ret_inv in Er as [Er ->].
  exists response. split; [exact Er|].
  destruct (status_code response =? 200)%Z eqn:Ecode; cbn [negb] in H.
  - right. apply Z.eqb_eq in Ecode. split; [exact Ecode|].
    bind_inv H as data st4 E1. apply lift_ret_inv in E1 as [E1 ->].
    bind_inv H as state st5 E2. apply lift_ret_inv in E2 as [E2 ->].
    bind_inv H as attributes st6 E3. apply lift_ret_inv in E3 as [E3 ->].
    bind_inv H as items st7 E4. apply lift_ret_inv in E4 as [E4 ->].
    emit_inv H as st8. emit_inv H as st9.
    inversion H; subst.
    apply get_method_ret in E2 as (d & -> & ->).
    apply get_method_ret in E3 as (d' & Hd & ->). inversion Hd; subst d'.
    exists d. auto.
  - left. apply Z.eqb_neq in Ecode. split; [exact Ecode|].
    emit_inv H as st4. now inversion H.
Qed.

(** C10.  On the 200 path [getAttributesForEntity] returns a mapping with
    exactly the keys [state] and [attributes], [state] being [None] and
    [attributes] the empty mapping when the body lacks them, and no [error]
    key; and whatever the call returns has an [error] key if and only if
    the body raised and the handler answered. *)
Theorem getAttributesForEntity_shape (requests : http) (entity_id : string)
        (em : emitter) (st st' : state) (r : pydict pyval) :
  (forall response,
      requests (state_request st entity_id) = Ret response ->
      status_code response = 200%Z ->
      getAttributesForEntity_try requests entity_id em st = (Ret r, st') ->
      getAttributesForEntity requests entity_id em st = (Ret r, st') /\
      exists d,
        response_json response = Ret (PDict d) /\
        r = [("state", match dict_get "state" d with
                       | Some x => x
                       | None => PNone
                       end);
             ("attributes", match dict_get "attributes" d with
                            | Some x => x
                            | None => PDict []
                            end)] /\
        dict_keys r = ["state"; "attributes"] /\
        dict_has "error" r = false) /\
  (getAttributesForEntity requests entity_id em st = (Ret r, st') ->
   (dict_has "error" r = true <->
    exists e st1,
      getAttributesForEntity_try requests entity_id em st = (Raise e, st1))).
Proof.
  split.
  - intros response Hreq Hcode H. split; [now apply try_except_ret|].
    apply getAttributesForEntity_try_ret in H
      as (response' & Hreq' & [[Hne _]|[_ (d & Hjson & ->)]]);
      rewrite Hreq in Hreq'; inversion Hreq'; subst response'; [contradiction|].
    exists d. auto.
  - intros H. apply try_except_inv in H as [H|(e & st1 & Hbody & H)].
    + split.
      * apply getAttributesForEntity_try_ret in H
          as (response & _ & [[_ ->]|[_ (d & _ & ->)]]); discriminate.
      * intros (e & st1 & Hraise). rewrite H in Hraise. discriminate.
    + unfold getAttributesForEntity_except in H.
      emit_inv H as st2. inversion H; subst.
      split; [eauto|reflexivity].
Qed.

Lemma getAttributesForEntity_shape_witness :
  let hub := replies 200 "{}" (PDict []) in
  let r := [("state", PNone); ("attributes", PDict [])] in
  let st' := snd (getAttributesForEntity_try hub "light.a" quiet fresh) in
  getAttributesForEntity_try hub "light.a" quiet fresh = (Ret r, st') /\
  getAttributesForEntity hub "light.a" quiet fresh = (Ret r, st') /\
  dict_keys r = ["state"; "attributes"] /\
  dict_has "error" r = false /\
  ~ exists e st1,
      getAttributesForEntity_try hub "light.a" quiet fresh = (Raise e, st1).
Proof.
  intros hub r st'.
  assert (Hrun : getAttributesForEntity_try hub "light.a" quiet fresh = (Ret r, st'))
    by reflexivity.
  destruct (getAttributesForEntity_shape hub "light.a" quiet fresh st' r)
    as [Hok Herr].
  destruct (Hok (mkResponse 200 "{}" (Ret (PDict []))) eq_refl eq_refl Hrun)
    as (Hfull & d & _ & _ & Hkeys & Hno).
  repeat split; auto.
  intros Hraise. apply (Herr Hfull) in Hraise. rewrite Hno in Hraise.
  discriminate Hraise.
Defined.

(** ** Services of a domain *)

Lemma first_match_skips (dom : string) (pre rest : list pyval) :
  Forall (other_domain dom) pre ->
  first_match dom (pre ++ rest) = first_match dom rest.
Proof.
  induction 1 as [|r pre (d & v & -> & Hget & Hne) _ IH]; [reflexivity|].
  cbn [app first_match subscript]. rewrite Hget. cbn [obind]. now rewrite Hne.
Qed.

Lemma first_match_none (dom : string) (records : list pyval) :
  Forall (other_domain dom) records -> first_match dom records = Ret PNone.
Proof.
  intros H. rewrite <- (app_nil_r records). now rewrite first_match_skips.
Qed.

Lemma first_match_found (dom : string) (pre post : list pyval)
      (d : list (string * pyval)) :
  Forall (other_domain dom) pre ->
  dict_get "domain" d = Some (PStr dom) ->
  first_match dom (pre ++ PDict d :: post) = Ret (PDict d).
Proof.
  intros Hpre Hd. rewrite first_match_skips by exact Hpre.
  cbn [first_match subscript]. rewrite Hd. cbn [obind eq_str].
  now rewrite String.eqb_refl.
Qed.

(** C8.  After a 200 answer listing [records], with a callback that
    accepts the events: when every record is for another domain, the call
    emits the opening status and one message, no closing or error status,
    and returns the empty list; when a record for the domain comes after
    records for other domains only, the call returns the [services] of that
    first matching record. *)
Theorem getAvailableServicesForDomain_lookup (requests : http) (dom : string)
        (em : emitter) (st : state) (response : Response)
        (records : list pyval) :
  never_raises em ->
  requests (services_request st) = Ret response ->
  status_code response = 200%Z ->
  response_json response = Ret (PList records) ->
  (Forall (other_domain dom) records ->
   getAvailableServicesForDomain requests dom em st =
   (Ret (PList []),
    after st
      [Status [Lit ("Fetching available services for domain '" ++ dom ++ "'")]
              false;
       Message [Lit ("No services found for domain `" ++ dom ++ "`")]]
      (services_request st))) /\
  (forall pre d post services names,
      records = pre ++ PDict d :: post ->
      Forall (other_domain dom) pre ->
      dict_get "domain" d = Some (PStr dom) ->
      dict_get "services" d = Some services ->
      iterate services = Ret names ->
      getAvailableServicesForDomain requests dom em st =
      (Ret services,
       after st
         [Status [Lit ("Fetching available services for domain '" ++ dom ++ "'")]
                 false;
          Message ([Lit ("**Available services for domain** `" ++ dom ++ "`:"
                         ++ nl ++ nl)]
                   ++ flat_map (fun s => [Lit "- `"; StrOf s; Lit ("`" ++ nl)])
                               names);
          Status [Lit "Service list complete"] true]
         (services_request st))).
Proof.
  intros Hem Hreq Hcode Hjson.
  unfold getAvailableServicesForDomain, try_except,
    getAvailableServicesForDomain_try, bind.
  rewrite emit_never_raises by exact Hem.
  unfold get_valves, perform, lift, thrown. cbn [self emitted sent].
  unfold services_request in Hreq. rewrite Hreq, Hcode, Hjson.
  cbn [Z.eqb Pos.eqb negb iterate]. cbv beta iota.
  split.
  - intros Hnone. rewrite first_match_none by exact Hnone.
    cbn [truthy negb]. cbv beta iota.
    rewrite emit_never_raises by exact Hem.
    unfold ret, after, services_request. cbn [self emitted sent].
    now rewrite <- app_assoc.
  - intros pre d post services names -> Hpre Hd Hs Hnames.
    rewrite first_match_found by assumption.
    assert (Htruthy : truthy (PDict d) = true).
    { cbn. destruct d; [discriminate Hd|reflexivity]. }
    rewrite Htruthy. cbn [negb subscript]. rewrite Hs, Hnames. cbv beta iota.
    rewrite emit_never_raises by exact Hem.
    rewrite emit_never_raises by exact Hem.
    unfold ret, after, services_request. cbn [self emitted sent].
    now rewrite <- !app_assoc.
Qed.

Lemma getAvailableServicesForDomain_lookup_witness :
  let hub := replies 200 "" two_services in
  never_raises quiet /\
  getAvailableServicesForDomain hub "nope" quiet fresh =
  (Ret (PList []),
   after fresh
     [Status [Lit "Fetching available services for domain 'nope'"] false;
      Message [Lit "No services found for domain `nope`"]]
     (services_request fresh)) /\
  fst (getAvailableServicesForDomain hub "switch" quiet fresh) =
  Ret (PDict [("toggle", PDict [])]).
Proof.
  intros hub.
  assert (Hq : never_raises quiet) by (exists (fun _ _ => None); auto).
  assert (Hlight : other_domain "nope" (PDict [("domain", PStr "light");
             ("services", PDict [("turn_on", PDict []); ("turn_off", PDict [])])])).
  { eexists _, _. repeat split; reflexivity. }
  assert (Hswitch : other_domain "nope" (PDict [("domain", PStr "switch");
             ("services", PDict [("toggle", PDict [])])])).
  { eexists _, _. repeat split; reflexivity. }
  assert (Hlight' : other_domain "switch" (PDict [("domain", PStr "light");
             ("services", PDict [("turn_on", PDict []); ("turn_off", PDict [])])])).
  { eexists _, _. repeat split; reflexivity. }
  split; [exact Hq|]. split.
  - apply (proj1 (getAvailableServicesForDomain_lookup hub "nope" quiet fresh
                    (mkResponse 200 "" (Ret two_services)) _
                    Hq eq_refl eq_refl eq_refl)).
    repeat constructor; assumption.
  - rewrite (proj2 (getAvailableServicesForDomain_lookup hub "switch" quiet fresh
                      (mkResponse 200 "" (Ret two_services)) _
                      Hq eq_refl eq_refl eq_refl)
               [PDict [("domain", PStr "light");
                       ("services", PDict [("turn_on", PDict []);
                                           ("turn_off", PDict [])])]]
               [("domain", PStr "switch");
                ("services", PDict [("toggle", PDict [])])]
               []
               (PDict [("toggle", PDict [])])
               [PStr "toggle"]
               eq_refl (Forall_cons _ Hlight' (Forall_nil _))
               eq_refl eq_refl eq_refl).
    reflexivity.
Defined.

(** ** The entity cache *)

(** Walks through a method built from [bind], [try_except], [emit],
    [perform] and pure steps, none of which touches the object. *)
Ltac same_self_walk :=
  repeat (cbv zeta;
          first [ apply (frame_try_except same_self same_self_trans); [|intros ?]
                | apply (frame_bind same_self same_self_trans); [|intros ?]
                | apply (frame_ret same_self same_self_refl)
                | apply (frame_lift same_self same_self_refl)
                | apply (frame_get_valves same_self same_self_refl)
                | apply emit_same_self
                | apply perform_same_self
                | apply frame_if ]).

Lemma controlEntity_same_self (requests : http) (entityID dom service : string)
      (em : emitter) :
  keeps_frame same_self (controlEntity requests entityID dom service em).
Proof.
  unfold controlEntity, controlEntity_try, command_except. same_self_walk.
Qed.

Lemma getAvailableServicesForDomain_same_self (requests : http) (dom : string)
      (em : emitter) :
  keeps_frame same_self (getAvailableServicesForDomain requests dom em).
Proof.
  unfold getAvailableServicesForDomain, getAvailableServicesForDomain_try,
    getAvailableServicesForDomain_except.
  same_self_walk.
Qed.

Lemma getAttributesForEntity_same_self (requests : http) (entity_id : string)
      (em : emitter) :
  keeps_frame same_self (getAttributesForEntity requests entity_id em).
Proof.
  unfold getAttributesForEntity, getAttributesForEntity_try,
    getAttributesForEntity_except.
  same_self_walk.
Qed.

Lemma setEntityAttribute_same_self (requests : http)
      (entity_id dom service : string) (data : pydict pyval) (em : emitter) :
  keeps_frame same_self (setEntityAttribute requests entity_id dom service data em).
Proof.
  unfold setEntityAttribute, setEntityAttribute_try, command_except.
  same_self_walk.
Qed.

(** C7.  A successful [getEntitiesByDomain dom] assigns the returned list
    to the cache entry [dom], whatever was there, and leaves every other
    entry as it was; a successful [getAllEntities] makes the returned
    grouping the whole cache; and the other four operations leave the
    object, and so the cache, untouched, whether they return or raise. *)
Theorem entity_cache_writes (requests : http) (em : emitter) (st : state) :
  (forall dom st' ents,
      getEntitiesByDomain requests dom em st = (Ret (Entities ents), st') ->
      entity_cache (self st') = dict_set dom ents (entity_cache (self st)) /\
      dict_get dom (entity_cache (self st')) = Some ents /\
      forall k, k <> dom ->
                dict_get k (entity_cache (self st')) =
                dict_get k (entity_cache (self st))) /\
  (forall st' response grouped,
      requests (states_request st) = Ret response ->
      status_code response = 200%Z ->
      getAllEntities_try requests em st = (Ret grouped, st') ->
      getAllEntities requests em st = (Ret grouped, st') /\
      entity_cache (self st') = grouped) /\
  (forall entityID dom service,
      self (snd (controlEntity requests entityID dom service em st)) = self st) /\
  (forall dom,
      self (snd (getAvailableServicesForDomain requests dom em st)) = self st) /\
  (forall entity_id,
      self (snd (getAttributesForEntity requests entity_id em st)) = self st) /\
  (forall entity_id dom service data,
      self (snd (setEntityAttribute requests entity_id dom service data em st)) =
      self st).
Proof.
  split; [|split; [|repeat split]].
  - intros dom st' ents H.
    apply getEntitiesByDomain_success in H
      as (response & all_states & items & _ & _ & _ & _ & _ & Hcache).
    rewrite Hcache. split; [reflexivity|]. split.
    + apply dict_get_set_same.
    + intros k Hk. now apply dict_get_set_other.
  - intros st' response grouped Hreq Hcode H.
    split; [now apply try_except_ret|].
    destruct (getAllEntities_try_ret _ _ _ _ _ _ Hreq Hcode H)
      as (all_states & items & _ & _ & _ & Hself).
    now rewrite Hself.
  - intros. apply controlEntity_same_self.
  - intros. apply getAvailableServicesForDomain_same_self.
  - intros. apply getAttributesForEntity_same_self.
  - intros. apply setEntityAttribute_same_self.
Qed.

Lemma entity_cache_writes_witness :
  let hub := replies 200 "" three_states in
  let a := mkEntity (PStr "light.a") (PStr "A") "light" in
  let b := mkEntity (PStr "switch.b") (PStr "unknown") "switch" in
  let c := mkEntity (PStr "light.c") (PStr "unknown") "light" in
  let full := snd (getAllEntities hub quiet fresh) in
  let narrow := snd (getEntitiesByDomain (replies 200 "" two_states) "light"
                                         quiet full) in
  entity_cache (self full) = [("light", [a; c]); ("switch", [b])] /\
  entity_cache (self narrow) = [("light", [a]); ("switch", [b])] /\
  dict_get "switch" (entity_cache (self narrow)) =
  dict_get "switch" (entity_cache (self full)).
Proof.
  intros hub a b c full narrow.
  destruct (entity_cache_writes hub quiet fresh) as (_ & Hall & _).
  destruct (Hall full (mkResponse 200 "" (Ret three_states))
                 [("light", [a; c]); ("switch", [b])]
                 eq_refl eq_refl eq_refl) as [_ Hfull].
  destruct (entity_cache_writes (replies 200 "" two_states) quiet full)
    as (Hone & _).
  destruct (Hone "light" narrow [a] eq_refl) as (Hset & _ & Hother).
  split; [exact Hfull|]. split.
  - rewrite Hset, Hfull. reflexivity.
  - apply Hother. discriminate.
Defined.

(** * Further properties of the object *)

(** ** What a discovery call leaves in the object, on every path *)

(** Case analysis of a straight-line method: every test it makes on the
    callback, the HTTP layer and the decoded body is split in turn. *)
Ltac split_on x := destruct x eqn:?; cbn [fst snd self emitted sent negb].

Ltac split_paths f requests :=
  repeat match goal with
         | |- context [match f ?l ?ev with _ => _ end] =>
             destruct (f l ev) as [[?|?]|] eqn:?;
             cbn [fst snd self emitted sent negb]
         | |- context [match requests ?r with _ => _ end] => split_on (requests r)
         | |- context [(status_code ?r =? 200)%Z] =>
             split_on (status_code r =? 200)%Z
         | |- context [match response_json ?r with _ => _ end] =>
             split_on (response_json r)
         | |- context [match iterate ?v with _ => _ end] => split_on (iterate v)
         | |- context [match comprehension ?d ?l with _ => _ end] =>
             split_on (comprehension d l)
         | |- context [match group_loop ?g ?l with _ => _ end] =>
             split_on (group_loop g l)
         | |- context [match first_match ?d ?l with _ => _ end] =>
             split_on (first_match d l)
         | |- context [truthy ?v] => split_on (truthy v)
         | |- context [match subscript ?v ?k with _ => _ end] =>
             split_on (subscript v k)
         | |- context [match get_method ?v ?k ?d with _ => _ end] =>
             split_on (get_method v k d)
         | |- context [match items_method ?v with _ => _ end] =>
             split_on (items_method v)
         end.

Lemma getEntitiesByDomain_self (requests : http) (dom : string) (em : emitter)
      (st : state) :
  let st' := snd (getEntitiesByDomain requests dom em st) in
  self st' = self st \/
  exists response all_states items ents,
    requests (states_request st) = Ret response /\
    status_code response = 200%Z /\
    response_json response = Ret all_states /\
    iterate all_states = Ret items /\
    comprehension dom items = Ret ents /\
    self st' = with_cache (self st) (dict_set dom ents (entity_cache (self st))).
Proof.
  unfold getEntitiesByDomain, try_except, getEntitiesByDomain_try,
    getEntitiesByDomain_except, bind, emit, get_valves, perform, lift, thrown,
    cache_setitem, ret, states_request, url_states.
  destruct em as [f|]; cbn [fst snd self emitted sent]; [|now left].
  split_paths f requests; try (left; reflexivity).
  all: right;
    match goal with
    | Hc : (_ =? 200)%Z = true |- _ => apply Z.eqb_eq in Hc
    end;
    eexists _, _, _, _; repeat split; eassumption || reflexivity.
Qed.

Lemma emit_state (em : emitter) (ev : event) (st : state) :
  self (snd (emit em ev st)) = self st /\
  sent (snd (emit em ev st)) = sent st.
Proof.
  unfold emit. destruct em as [f|]; [|auto].
  destruct (f (emitted st) ev); auto.
Qed.

Lemma for_each_emit_state (A : Type) (em : emitter) (g : A -> event)
      (l : list A) :
  forall st,
    self (snd (for_each l (fun x => emit em (g x)) st)) = self st /\
    sent (snd (for_each l (fun x => emit em (g x)) st)) = sent st.
Proof.
  induction l as [|x l IH]; intros st; cbn [for_each fold_right]; [auto|].
  unfold bind. destruct (emit_state em (g x) st) as [Hself Hsent].
  destruct (emit em (g x) st) as [[u|e] st1]; cbn [snd] in *; [|auto].
  destruct (IH st1) as [Hself' Hsent']. unfold for_each, bind in *.
  split; congruence.
Qed.

(** Splits the next [emit] of a method, keeping what it leaves of the
    object and of the requests. *)
Ltac split_emit :=
  match goal with
  | |- context [for_each ?l (fun x => emit ?em (@?g x)) ?s] =>
      let Hself := fresh "Hself" in
      let Hsent := fresh "Hsent" in
      destruct (for_each_emit_state _ em g l s) as [Hself Hsent];
      destruct (for_each l (fun x => emit em (g x)) s) as [[[]|[?|?]] ?];
      cbn [fst snd] in Hself, Hsent |- *
  | |- context [emit ?em ?ev ?s] =>
      let Hself := fresh "Hself" in
      let Hsent := fresh "Hsent" in
      destruct (emit_state em ev s) as [Hself Hsent];
      destruct (emit em ev s) as [[[]|[?|?]] ?];
      cbn [fst snd] in Hself, Hsent |- *
  end.

Lemma getAllEntities_state (requests : http) (em : emitter) (st : state) :
  let st' := snd (getAllEntities requests em st) in
  (self st' = self st \/
   exists response all_states items grouped,
     requests (states_request st) = Ret response /\
     status_code response = 200%Z /\
     response_json response = Ret all_states /\
     iterate all_states = Ret items /\
     group_loop [] items = Ret grouped /\
     self st' = with_cache (self st) grouped) /\
  (sent st' = sent st \/ sent st' = sent st ++ [states_request st]).
Proof.
  unfold getAllEntities, try_except, getAllEntities_try, getAllEntities_except,
    bind, get_valves, perform, lift, thrown, cache_assign, ret, states_request,
    url_states.
  split_emit;
    [|split_emit; (split; left; congruence)|split; left; congruence].
  rewrite Hself.
  destruct (requests _) as [response|e] eqn:Hreq; cbn [fst snd self emitted sent].
  2:{ split_emit; cbn [self sent] in *; (split; [left|right]; congruence). }
  destruct (status_code response =? 200)%Z eqn:Hcode; cbn [negb].
  2:{ split_emit; cbn [self sent] in *;
        [split; [left|right]; congruence
        |split_emit; cbn [self sent] in *; (split; [left|right]; congruence)
        |split; [left|right]; congruence]. }
  apply Z.eqb_eq in Hcode.
  destruct (response_json response) as [all_states|e] eqn:Hjson;
    cbn [fst snd self emitted sent].
  2:{ split_emit; cbn [self sent] in *; (split; [left|right]; congruence). }
  destruct (iterate all_states) as [items|e] eqn:Hiter;
    cbn [fst snd self emitted sent].
  2:{ split_emit; cbn [self sent] in *; (split; [left|right]; congruence). }
  destruct (group_loop [] items) as [grouped|e] eqn:Hloop;
    cbn [fst snd self emitted sent].
  2:{ split_emit; cbn [self sent] in *; (split; [left|right]; congruence). }
  assert (Hthere :
            forall st',
              self st' = with_cache (self st) grouped ->
              exists response0 all_states0 items0 grouped0,
                (Ret response : outcome Response) = Ret response0 /\
                status_code response0 = 200%Z /\
                response_json response0 = Ret all_states0 /\
                iterate all_states0 = Ret items0 /\
                group_loop [] items0 = Ret grouped0 /\
                self st' = with_cache (self st) grouped0).
  { intros st' Hst'. exists response, all_states, items, grouped. auto 10. }
  unfold with_cache in Hthere.
  split_emit; cbn [self sent] in *;
    [|split_emit; cbn [self sent] in *;
      (split; [right; apply Hthere|right]; congruence)
     |split; [right; apply Hthere|right]; congruence].
  split_emit; cbn [self sent] in *;
    [split; [right; apply Hthere|right]; congruence
    |split_emit; cbn [self sent] in *;
     (split; [right; apply Hthere|right]; congruence)
    |split; [right; apply Hthere|right]; congruence].
Qed.

(** ** The cache across a session *)

Lemma dict_set_in (V : Type) (k k0 : string) (v v0 : V) (d : pydict V) :
  In (k, v) (dict_set k0 v0 d) -> (k = k0 /\ v = v0) \/ In (k, v) d.
Proof.
  induction d as [|[k1 v1] d IH]; cbn [dict_set In].
  - intros [H|[]]. inversion H. auto.
  - destruct (String.eqb k0 k1) eqn:E; cbn [In].
    + apply String.eqb_eq in E. subst k1.
      intros [H|H]; [inversion H; auto|auto].
    + intros [H|H]; [auto|]. destruct (IH H); auto.
Qed.

Lemma startswith_app (p r : string) : startswith (p ++ r) p = true.
Proof.
  induction p as [|c p IH]; cbn [String.append].
  - unfold startswith. now destruct r.
  - rewrite startswith_cons, Ascii.eqb_refl. exact IH.
Qed.

Lemma append_empty (s : string) : (s ++ "")%string = s.
Proof. induction s as [|c s IH]; cbn [String.append]; congruence. Qed.

Lemma append_append (a b c : string) :
  ((a ++ b) ++ c)%string = (a ++ b ++ c)%string.
Proof. induction a as [|x a IH]; cbn [String.append]; congruence. Qed.

Lemma before_first_dot_filed (s : string) :
  s = before_first_dot s \/ startswith s (before_first_dot s ++ ".") = true.
Proof.
  destruct (before_first_dot_prefix s) as (rest & Hs & [->|(r & ->)]).
  - left. now rewrite append_empty in Hs.
  - right. rewrite Hs at 1.
    change (String dot r) with ("." ++ r)%string.
    rewrite <- append_append. apply startswith_app.
Qed.

Lemma kept_filed_under (dom : string) (items : list pyval) (ents : list Entity) :
  comprehension dom items = Ret ents -> Forall (filed_under dom) ents.
Proof.
  intros H. apply comprehension_spec, kept_entities in H.
  eapply Forall_impl; [|exact H].
  intros e (s & Hid & Hs & Hdom & _). exists s. auto.
Qed.

Lemma grouped_filed_under (items : list pyval) (grouped : pydict (list Entity)) :
  group_loop [] items = Ret grouped -> cache_ok grouped.
Proof.
  intros H. apply group_loop_spec in H as (ents & Hproj & Hgrp & _).
  specialize (Hgrp [] grouping_nil). cbn [app] in Hgrp.
  split; [apply Hgrp|].
  intros k es Hin. destruct (grouping_bound _ _ _ _ Hgrp Hin) as [-> _].
  apply Forall_forall. intros e He. apply filter_In in He as [He Hk].
  apply String.eqb_eq in Hk.
  destruct (Forall2_in_right _ _ _ _ _ _ Hproj He) as (item & _ & Hp).
  destruct (projects_domain _ _ Hp) as (s & Hid & Hdom).
  exists s. split; [exact Hid|]. split; [exact Hdom|].
  rewrite <- Hk, Hdom.
  destruct (before_first_dot_filed s); auto.
Qed.

Lemma cache_ok_set (dom : string) (ents : list Entity)
      (c : pydict (list Entity)) :
  cache_ok c -> Forall (filed_under dom) ents -> cache_ok (dict_set dom ents c).
Proof.
  intros [Hnd Hall] Hents. split; [now apply dict_set_nodup|].
  intros k es Hin. apply dict_set_in in Hin as [[-> ->]|Hin]; eauto.
Qed.

Lemma invoke_keeps_cache_ok (requests : http) (em : emitter) (c : call)
      (st : state) :
  cache_ok (entity_cache (self st)) ->
  cache_ok (entity_cache (self (invoke requests em c st))) /\
  valves (self (invoke requests em c st)) = valves (self st) /\
  citation (self (invoke requests em c st)) = citation (self st).
Proof.
  intros Hok. destruct c; cbn [invoke].
  - destruct (getEntitiesByDomain_self requests dom em st)
      as [->|(response & all_states & items & ents & _ & _ & _ & _ & Hc & ->)];
      [auto|].
    cbn [with_cache entity_cache valves citation].
    split; [|split; reflexivity]. apply cache_ok_set; [exact Hok|].
    now apply kept_filed_under with (items := items).
  - destruct (getAllEntities_state requests em st)
      as [[->|(response & all_states & items & grouped & _ & _ & _ & _ & Hg & ->)] _];
      [auto|].
    cbn [with_cache entity_cache valves citation].
    split; [|split; reflexivity].
    now apply grouped_filed_under with (items := items).
  - rewrite controlEntity_same_self. auto.
  - rewrite getAvailableServicesForDomain_same_self. auto.
  - rewrite getAttributesForEntity_same_self. auto.
  - rewrite setEntityAttribute_same_self. auto.
Qed.

(** X1.  Whatever calls are made on a new object, in whatever order, against
    whatever hub and callback, and whether they return or raise: the valves
    stay as configured, and every entity in the cache sits under a key that
    is its id or a dotted prefix of its id, with the prefix of its id before
    the first dot as its domain. *)
Theorem session_keeps_cache_well_formed (v : Valves)
        (calls : list (http * emitter * call)) :
  let st' := run calls {| self := init v; emitted := []; sent := [] |} in
  cache_ok (entity_cache (self st')) /\
  valves (self st') = v /\
  citation (self st') = false.
Proof.
  cbv zeta.
  assert (Hgen : forall st,
             cache_ok (entity_cache (self st)) ->
             cache_ok (entity_cache (self (run calls st))) /\
             valves (self (run calls st)) = valves (self st) /\
             citation (self (run calls st)) = citation (self st)).
  { unfold run. induction calls as [|[[requests em] c] calls IH]; intros st Hok;
      cbn [fold_left fst snd]; [auto|].
    destruct (invoke_keeps_cache_ok requests em c st Hok) as (Hok' & Hv & Hc).
    destruct (IH _ Hok') as (Hok'' & Hv' & Hc').
    split; [exact Hok''|split; congruence]. }
  apply (Hgen {| self := init v; emitted := []; sent := [] |}).
  split; [constructor|]. intros k es [].
Qed.

(** ** Domain discovery, forwards *)

(** X2.  A hub that does not answer 200, or does not answer at all, costs the
    cache nothing: both discovery operations leave the object as it was,
    whatever the callback does. *)
Theorem failed_discovery_keeps_cache (requests : http) (em : emitter)
        (st : state) :
  (forall response,
      requests (states_request st) = Ret response ->
      status_code response <> 200%Z) ->
  (forall dom, self (snd (getEntitiesByDomain requests dom em st)) = self st) /\
  self (snd (getAllEntities requests em st)) = self st.
Proof.
  intros Hbad. split.
  - intros dom.
    destruct (getEntitiesByDomain_self requests dom em st)
      as [H|(response & _ & _ & _ & Hreq & Hcode & _)]; [exact H|].
    now destruct (Hbad response Hreq).
  - destruct (getAllEntities_state requests em st)
      as [[H|(response & _ & _ & _ & Hreq & Hcode & _)] _]; [exact H|].
    now destruct (Hbad response Hreq).
Qed.

Lemma failed_discovery_keeps_cache_witness :
  let seeded := snd (getAllEntities (replies 200 "" three_states) quiet fresh) in
  let down := replies 503 "Service Unavailable" PNone in
  entity_cache (self seeded) <> [] /\
  self (snd (getEntitiesByDomain down "light" None seeded)) = self seeded /\
  self (snd (getAllEntities unreachable quiet seeded)) = self seeded.
Proof.
  intros seeded down. split; [discriminate|]. split.
  - apply (proj1 (failed_discovery_keeps_cache down None seeded
                    ltac:(intros response H; inversion H; discriminate))).
  - apply (proj2 (failed_discovery_keeps_cache unreachable quiet seeded
                    ltac:(intros response H; discriminate H))).
Defined.

(** X3.  On an answer other than 200, with a callback that accepts the events,
    [getEntitiesByDomain] returns a list holding one error string made of
    the status code and the body text, after the opening status and one
    closing status; the object is untouched. *)
Theorem getEntitiesByDomain_non_200 (requests : http) (dom : string)
        (em : emitter) (st : state) (response : Response) :
  never_raises em ->
  requests (states_request st) = Ret response ->
  status_code response <> 200%Z ->
  getEntitiesByDomain requests dom em st =
  (Ret (Errors [[Lit "Error "; StrOf (PInt (status_code response));
                 Lit (": " ++ response_text response)]]),
   after st
     [Status [Lit ("Querying entities in domain '" ++ dom ++ "'")] false;
      Status [Lit "Error: "; StrOf (PInt (status_code response))] true]
     (states_request st)).
Proof.
  intros Hem Hreq Hcode.
  unfold getEntitiesByDomain, try_except, getEntitiesByDomain_try, bind.
  rewrite emit_never_raises by exact Hem.
  unfold get_valves, perform, thrown. cbn [self emitted sent].
  unfold states_request, url_states in Hreq. rewrite Hreq.
  apply Z.eqb_neq in Hcode. rewrite Hcode. cbn [negb].
  rewrite emit_never_raises by exact Hem.
  unfold ret, after, states_request, url_states. cbn [self emitted sent].
  now rewrite <- app_assoc.
Qed.

Lemma getEntitiesByDomain_non_200_witness :
  never_raises quiet /\
  fst (getEntitiesByDomain (replies 401 "401: Unauthorized" PNone) "light"
                           quiet fresh) =
  Ret (Errors [[Lit "Error "; StrOf (PInt 401); Lit ": 401: Unauthorized"]]).
Proof.
  assert (Hq : never_raises quiet) by (exists (fun _ _ => None); auto).
  split; [exact Hq|].
  rewrite (getEntitiesByDomain_non_200
             (replies 401 "401: Unauthorized" PNone) "light" quiet fresh
             (mkResponse 401 "401: Unauthorized" (Ret PNone)) Hq eq_refl);
    [reflexivity|discriminate].
Defined.

Lemma comprehension_complete (dom : string) (items : list pyval) :
  Forall has_entity_id items ->
  forall ents,
    Forall2 projects (filter (keeps dom) items) ents ->
    comprehension dom items = Ret ents.
Proof.
  induction 1 as [|item items (d & s & -> & Hid) _ IH]; intros ents Hproj.
  - inversion Hproj. reflexivity.
  - cbn [filter keeps] in Hproj. rewrite Hid in Hproj.
    cbn [comprehension subscript]. rewrite Hid.
    cbn [obind startswith_method].
    destruct (startswith s (dom ++ ".")).
    + inversion Hproj as [|? e ? ents' Hp Hrest]; subst.
      destruct Hp as (d' & s' & attrs & Hd & Hid' & Hattrs & ->).
      inversion Hd; subst d'. rewrite Hid in Hid'. inversion Hid'; subst s'.
      rewrite Hattrs. cbn [obind get_method split_method].
      rewrite index0_split_dot. cbn [obind].
      now rewrite (IH ents' Hrest).
    + now apply IH.
Qed.

(** X4.  On a 200 answer that is a list of state objects with string ids, of
    which those kept also have [attributes], and with a callback that
    accepts the events, [getEntitiesByDomain] returns the projections of
    the kept objects, stores them under the domain, and emits the opening
    status, the table, the hint and the closing status, in that order.
    State objects of other domains need no [attributes]. *)
Theorem getEntitiesByDomain_complete (requests : http) (dom : string)
        (em : emitter) (st : state) (response : Response)
        (items : list pyval) (ents : list Entity) :
  never_raises em ->
  requests (states_request st) = Ret response ->
  status_code response = 200%Z ->
  response_json response = Ret (PList items) ->
  Forall has_entity_id items ->
  Forall2 projects (filter (keeps dom) items) ents ->
  getEntitiesByDomain requests dom em st =
  (Ret (Entities ents),
   {| self := with_cache (self st) (dict_set dom ents (entity_cache (self st)));
      emitted := emitted st ++
                 [Status [Lit ("Querying entities in domain '" ++ dom ++ "'")] false;
                  entity_table dom ents;
                  state_hint;
                  Status [Lit "Discovery complete"] true];
      sent := sent st ++ [states_request st] |}).
Proof.
  intros Hem Hreq Hcode Hjson Hids Hproj.
  unfold getEntitiesByDomain, try_except, getEntitiesByDomain_try, bind.
  rewrite emit_never_raises by exact Hem.
  unfold get_valves, perform, lift, cache_setitem, thrown. cbn [self emitted sent].
  unfold states_request, url_states in Hreq. rewrite Hreq, Hcode, Hjson.
  cbn [Z.eqb Pos.eqb negb iterate]. cbv beta iota.
  rewrite (comprehension_complete dom items Hids ents Hproj). cbv beta iota.
  rewrite emit_never_raises by exact Hem.
  rewrite emit_never_raises by exact Hem.
  rewrite emit_never_raises by exact Hem.
  unfold ret, with_cache, entity_table, state_hint, states_request, url_states.
  cbn [self emitted sent]. now rewrite <- !app_assoc.
Qed.

Lemma getEntitiesByDomain_complete_witness :
  let a := mkEntity (PStr "light.a") (PStr "A") "light" in
  never_raises quiet /\
  Forall has_entity_id
         [state_obj "light.a" [("friendly_name", PStr "A")];
          bare_state "sensor.x"; state_obj "light" []] /\
  fst (getEntitiesByDomain (replies 200 "" mixed_states) "light" quiet fresh) =
  Ret (Entities [a]) /\
  fst (getAllEntities (replies 200 "" mixed_states) quiet fresh) = Ret [].
Proof.
  intros a.
  assert (Hq : never_raises quiet) by (exists (fun _ _ => None); auto).
  assert (Hids : Forall has_entity_id
                   [state_obj "light.a" [("friendly_name", PStr "A")];
                    bare_state "sensor.x"; state_obj "light" []]).
  { repeat constructor; eexists _, _; split; reflexivity. }
  split; [exact Hq|]. split; [exact Hids|]. split; [|reflexivity].
  rewrite (getEntitiesByDomain_complete
             (replies 200 "" mixed_states) "light" quiet fresh
             (mkResponse 200 "" (Ret mixed_states)) _ [a]
             Hq eq_refl eq_refl eq_refl Hids).
  - reflexivity.
  - repeat constructor. eexists _, _, _. repeat split; reflexivity.
Defined.

(** ** Full discovery, forwards *)

Lemma existsb_keys (V : Type) (k : string) (g : pydict V) :
  existsb (String.eqb k) (dict_keys g) = dict_has k g.
Proof.
  unfold dict_has.
  induction g as [|[k' v'] g IH]; cbn [dict_keys map fst existsb dict_get];
    [reflexivity|].
  destruct (String.eqb k k'); [reflexivity|exact IH].
Qed.

Lemma group_step_projects (g : pydict (list Entity)) (item : pyval) (e : Entity) :
  projects item e ->
  exists g',
    group_step g item = Ret g' /\
    dict_keys g' = add_key (dict_keys g) (domain e).
Proof.
  intros (d & s & attrs & -> & Hid & Hattrs & ->).
  unfold group_step. cbn [subscript]. rewrite Hid, Hattrs.
  cbn [obind split_method get_method]. rewrite index0_split_dot. cbn [obind domain].
  unfold dict_setdefault, add_key. rewrite existsb_keys. unfold dict_has.
  destruct (dict_get (before_first_dot s) g) as [l|] eqn:Eg.
  - eexists. split; [reflexivity|].
    now apply dict_keys_set_present with (v0 := l).
  - eexists. split; [reflexivity|].
    rewrite dict_keys_set_present with (v0 := []) by apply dict_get_set_same.
    rewrite dict_set_absent by exact Eg.
    unfold dict_keys. now rewrite map_app.
Qed.

Lemma group_loop_complete (items : list pyval) (ents : list Entity) :
  Forall2 projects items ents ->
  forall g,
    exists g',
      group_loop g items = Ret g' /\
      dict_keys g' = fold_left add_key (map domain ents) (dict_keys g).
Proof.
  induction 1 as [|item e items ents Hp _ IH]; intros g; cbn [group_loop map fold_left].
  - eauto.
  - destruct (group_step_projects g item e Hp) as (g1 & Hstep & Hkeys).
    rewrite Hstep. cbn [obind]. destruct (IH g1) as (g' & Hloop & Hkeys').
    exists g'. split; [exact Hloop|]. now rewrite Hkeys', Hkeys.
Qed.

Lemma for_each_emit_quiet (A : Type) (em : emitter) (g : A -> event)
      (l : list A) :
  never_raises em ->
  forall st,
    for_each l (fun x => emit em (g x)) st =
    (Ret tt, {| self := self st; emitted := emitted st ++ map g l;
                sent := sent st |}).
Proof.
  intros Hem. induction l as [|x l IH]; intros st; cbn [for_each fold_right map].
  - unfold ret. rewrite app_nil_r. now destruct st.
  - unfold bind. rewrite emit_never_raises by exact Hem.
    unfold for_each in IH. rewrite IH. cbn [self emitted sent].
    now rewrite <- app_assoc.
Qed.

Lemma projects_functional (item : pyval) (e e' : Entity) :
  projects item e -> projects item e' -> e = e'.
Proof.
  intros (d & s & attrs & -> & Hid & Hattrs & ->)
         (d' & s' & attrs' & Hd & Hid' & Hattrs' & ->).
  inversion Hd; subst d'.
  rewrite Hid in Hid'. inversion Hid'; subst s'.
  rewrite Hattrs in Hattrs'. inversion Hattrs'; subst attrs'.
  reflexivity.
Qed.

Lemma projections_agree (items : list pyval) (ents ents' : list Entity) :
  Forall2 projects items ents' -> Forall2 projects items ents -> ents' = ents.
Proof.
  intros H. revert ents.
  induction H as [|item e items ents' Hp _ IH]; intros ents H';
    inversion H' as [|? e' ? ents'' Hp' Hrest]; subst; [reflexivity|].
  f_equal; [now apply projects_functional with (item := item)|now apply IH].
Qed.

(** X6.  On a 200 answer that is a list of well-formed state objects, with a
    callback that accepts the events, [getAllEntities] returns a grouping
    whose keys are the domains in the order in which they first appear
    upstream, makes it the cache, and emits the opening status, one table
    per group in key order, and the closing status. *)
Theorem getAllEntities_complete (requests : http) (em : emitter) (st : state)
        (response : Response) (items : list pyval) (ents : list Entity) :
  never_raises em ->
  requests (states_request st) = Ret response ->
  status_code response = 200%Z ->
  response_json response = Ret (PList items) ->
  Forall2 projects items ents ->
  exists grouped,
    getAllEntities requests em st =
    (Ret grouped,
     {| self := with_cache (self st) grouped;
        emitted := emitted st ++
                   [Status [Lit "Querying all entities"] false]
                   ++ map group_table grouped
                   ++ [Status [Lit "Full discovery complete"] true];
        sent := sent st ++ [states_request st] |}) /\
    dict_keys grouped = first_seen (map domain ents) /\
    forall k, dict_get k grouped =
              match group_of k ents with [] => None | es => Some es end.
Proof.
  intros Hem Hreq Hcode Hjson Hproj.
  destruct (group_loop_complete items ents Hproj []) as (grouped & Hloop & Hkeys).
  exists grouped. split; [|split; [exact Hkeys|]].
  - unfold getAllEntities, try_except, getAllEntities_try, bind.
    rewrite emit_never_raises by exact Hem.
    unfold get_valves, perform, lift, cache_assign, thrown. cbn [self emitted sent].
    unfold states_request, url_states in Hreq. rewrite Hreq, Hcode, Hjson.
    cbn [Z.eqb Pos.eqb negb iterate]. cbv beta iota.
    rewrite Hloop. cbv beta iota.
    rewrite (for_each_emit_quiet _ em group_table grouped Hem).
    cbn [self emitted sent].
    rewrite emit_never_raises by exact Hem.
    unfold ret, with_cache, states_request, url_states. cbn [self emitted sent].
    now rewrite <- !app_assoc.
  - apply group_loop_spec in Hloop as (ents' & Hproj' & Hgrp & _).
    specialize (Hgrp [] grouping_nil). cbn [app] in Hgrp.
    assert (ents' = ents) by (eapply projections_agree; eassumption).
    subst ents'. apply Hgrp.
Qed.

Lemma getAllEntities_complete_witness :
  let a := mkEntity (PStr "light.a") (PStr "A") "light" in
  let b := mkEntity (PStr "switch.b") (PStr "unknown") "switch" in
  let c := mkEntity (PStr "light.c") (PStr "unknown") "light" in
  never_raises quiet /\
  exists grouped,
    fst (getAllEntities (replies 200 "" three_states) quiet fresh) = Ret grouped /\
    dict_keys grouped = ["light"; "switch"] /\
    dict_get "light" grouped = Some [a; c].
Proof.
  intros a b c.
  assert (Hq : never_raises quiet) by (exists (fun _ _ => None); auto).
  split; [exact Hq|].
  destruct (getAllEntities_complete
              (replies 200 "" three_states) quiet fresh
              (mkResponse 200 "" (Ret three_states)) _ [a; b; c]
              Hq eq_refl eq_refl eq_refl)
    as (grouped & Hrun & Hkeys & Hget).
  { repeat constructor; eexists _, _, _; repeat split; reflexivity. }
  exists grouped. split; [now rewrite Hrun|]. split; [exact Hkeys|].
  rewrite Hget. reflexivity.
Defined.

Lemma Forall2_in_left (A B : Type) (P : A -> B -> Prop) (l : list A)
      (l' : list B) (x : A) :
  Forall2 P l l' -> In x l -> exists y, In y l' /\ P x y.
Proof.
  induction 1 as [|a b l l' Hab _ IH]; cbn [In]; [tauto|].
  intros [<-|Hin].
  - exists b. auto.
  - destruct (IH Hin) as (y & Hy & Hp). exists y. auto.
Qed.

(** X7.  One state object that cannot be projected, anywhere in a 200 answer,
    makes [getAllEntities] give up the whole grouping: it returns the empty
    mapping after a closing status that carries the exception, and the
    object, cache included, is as before. *)
Theorem getAllEntities_malformed_state (requests : http) (em : emitter)
        (st : state) (response : Response) (items : list pyval) (item : pyval) :
  never_raises em ->
  requests (states_request st) = Ret response ->
  status_code response = 200%Z ->
  response_json response = Ret (PList items) ->
  In item items ->
  (forall e, ~ projects item e) ->
  exists e,
    getAllEntities requests em st =
    (Ret [],
     after st
       [Status [Lit "Querying all entities"] false;
        Status [Lit ("Exception occurred: " ++ exn_str e)] true]
       (states_request st)).
Proof.
  intros Hem Hreq Hcode Hjson Hin Hbad.
  destruct (group_loop [] items) as [g|e] eqn:Hloop.
  { apply group_loop_spec in Hloop as (ents & Hproj & _).
    destruct (Forall2_in_left _ _ _ _ _ _ Hproj Hin) as (y & _ & Hp).
    now destruct (Hbad y). }
  exists e.
  unfold getAllEntities, try_except, getAllEntities_try, bind.
  rewrite emit_never_raises by exact Hem.
  unfold get_valves, perform, lift, thrown. cbn [self emitted sent].
  unfold states_request, url_states in Hreq. rewrite Hreq, Hcode, Hjson.
  cbn [Z.eqb Pos.eqb negb iterate]. cbv beta iota.
  rewrite Hloop. cbv beta iota.
  unfold getAllEntities_except, bind.
  rewrite emit_never_raises by exact Hem.
  unfold ret, after, states_request, url_states. cbn [self emitted sent].
  now rewrite <- !app_assoc.
Qed.

Lemma getAllEntities_malformed_state_witness :
  never_raises quiet /\
  (forall e, ~ projects (bare_state "sensor.x") e) /\
  exists e,
    getAllEntities (replies 200 "" mixed_states) quiet fresh =
    (Ret [],
     after fresh
       [Status [Lit "Querying all entities"] false;
        Status [Lit ("Exception occurred: " ++ exn_str e)] true]
       (states_request fresh)).
Proof.
  assert (Hq : never_raises quiet) by (exists (fun _ _ => None); auto).
  assert (Hbad : forall e, ~ projects (bare_state "sensor.x") e).
  { intros e (d & s & attrs & Hd & _ & Hattrs & _).
    inversion Hd; subst d. discriminate Hattrs. }
  split; [exact Hq|]. split; [exact Hbad|].
  apply (getAllEntities_malformed_state
           (replies 200 "" mixed_states) quiet fresh
           (mkResponse 200 "" (Ret mixed_states)) _ (bare_state "sensor.x")
           Hq eq_refl eq_refl eq_refl); [|exact Hbad].
  cbn. auto.
Defined.

(** ** The two discoveries against one another *)

Lemma startswith_has_dot (p s : string) :
  startswith s (p ++ ".") = true -> has_dot s = true.
Proof.
  revert s. induction p as [|c p IH]; intros s H; cbn [String.append] in H;
    (destruct s as [|b s]; [discriminate|]);
    rewrite startswith_cons in H; apply andb_true_iff in H as [Hb H];
    cbn [has_dot].
  - apply Ascii.eqb_eq in Hb. subst b. reflexivity.
  - rewrite (IH s H). apply orb_true_r.
Qed.

Lemma startswith_domain (dom s : string) :
  has_dot dom = false ->
  startswith s (dom ++ ".") =
  (String.eqb (before_first_dot s) dom && has_dot s).
Proof.
  intros Hdom. destruct (startswith s (dom ++ ".")) eqn:E.
  - rewrite (startswith_before_first_dot dom s Hdom E), String.eqb_refl.
    now rewrite (startswith_has_dot dom s E).
  - destruct (String.eqb (before_first_dot s) dom) eqn:Eb; [|reflexivity].
    apply String.eqb_eq in Eb. cbn [andb].
    destruct (before_first_dot_filed s) as [Hs|Hs].
    + rewrite Hs. now rewrite before_first_dot_no_dot.
    + rewrite Eb in Hs. congruence.
Qed.

Lemma kept_of_group (dom : string) (items : list pyval) (all : list Entity) :
  has_dot dom = false ->
  Forall2 projects items all ->
  Forall2 projects (filter (keeps dom) items)
          (filter id_has_dot (group_of dom all)).
Proof.
  intros Hdom. unfold group_of.
  induction 1 as [|item e items all Hp _ IH]; cbn [filter]; [constructor|].
  assert (Hk : keeps dom item =
               (String.eqb (domain e) dom && id_has_dot e)).
  { destruct Hp as (d & s & attrs & -> & Hid & _ & ->).
    cbn [keeps domain id_has_dot entity_id]. rewrite Hid.
    now apply startswith_domain. }
  rewrite Hk. destruct (String.eqb (domain e) dom); cbn [andb filter];
    [|exact IH].
  destruct (id_has_dot e); [constructor; assumption|exact IH].
Qed.

(** X8.  Asked of the same hub, the two discoveries agree: for a domain without
    a dot, what [getEntitiesByDomain] returns is the group of that domain
    in what [getAllEntities] returns, less the entities whose id has no dot
    (which full discovery files under their whole id and domain discovery
    never returns). *)
Theorem discoveries_agree (requests : http) (em em' : emitter)
        (st st0 st1 st2 : state) (response : Response) (dom : string)
        (ents : list Entity) (grouped : pydict (list Entity)) :
  has_dot dom = false ->
  valves (self st0) = valves (self st) ->
  requests (states_request st) = Ret response ->
  status_code response = 200%Z ->
  getEntitiesByDomain requests dom em st = (Ret (Entities ents), st1) ->
  getAllEntities_try requests em' st0 = (Ret grouped, st2) ->
  ents = filter id_has_dot
                (match dict_get dom grouped with Some es => es | None => [] end).
Proof.
  intros Hdom Hv Hreq Hcode Hone Hall.
  apply getEntitiesByDomain_success in Hone
    as (response' & all_states & items & Hreq' & _ & Hjson & Hiter & Hcomp & _).
  rewrite Hreq in Hreq'. inversion Hreq'; subst response'.
  assert (Hreq0 : requests (states_request st0) = Ret response).
  { unfold states_request, url_states in *. now rewrite Hv. }
  destruct (getAllEntities_try_ret _ _ _ _ _ _ Hreq0 Hcode Hall)
    as (all_states' & items' & Hjson' & Hiter' & Hloop & _).
  rewrite Hjson in Hjson'. inversion Hjson'; subst all_states'.
  rewrite Hiter in Hiter'. inversion Hiter'; subst items'.
  apply comprehension_spec in Hcomp.
  apply group_loop_spec in Hloop as (all & Hproj & Hgrp & _).
  specialize (Hgrp [] grouping_nil). cbn [app] in Hgrp.
  destruct Hgrp as [_ Hget]. rewrite Hget.
  replace (match match group_of dom all with
                 | [] => None
                 | x :: xs => Some (x :: xs)
                 end with
           | Some es => es
           | None => []
           end) with (group_of dom all) by now destruct (group_of dom all).
  apply projections_agree with (items := filter (keeps dom) items);
    [exact Hcomp|now apply kept_of_group].
Qed.

Lemma discoveries_agree_witness :
  let hub := replies 200 "" three_states in
  let a := mkEntity (PStr "light.a") (PStr "A") "light" in
  let c := mkEntity (PStr "light.c") (PStr "unknown") "light" in
  let grouped := [("light", [a; c]);
                  ("switch", [mkEntity (PStr "switch.b") (PStr "unknown") "switch"])] in
  getEntitiesByDomain hub "light" quiet fresh =
  (Ret (Entities [a; c]), snd (getEntitiesByDomain hub "light" quiet fresh)) /\
  [a; c] = filter id_has_dot
                  (match dict_get "light" grouped with Some es => es | None => [] end).
Proof.
  intros hub a c grouped. split; [reflexivity|].
  apply (discoveries_agree hub quiet quiet fresh fresh
           (snd (getEntitiesByDomain hub "light" quiet fresh))
           (snd (getAllEntities_try hub quiet fresh))
           (mkResponse 200 "" (Ret three_states)) "light" [a; c] grouped);
    reflexivity.
Defined.

(** ** Requests *)

(** The tests a method makes on the HTTP layer and on the decoded body. *)
Ltac split_body requests :=
  match goal with
  | |- context [match requests ?r with _ => _ end] => split_on (requests r)
  | |- context [(status_code ?r =? 200)%Z] => split_on (status_code r =? 200)%Z
  | |- context [match response_json ?r with _ => _ end] =>
      split_on (response_json r)
  | |- context [match iterate ?v with _ => _ end] => split_on (iterate v)
  | |- context [match comprehension ?d ?l with _ => _ end] =>
      split_on (comprehension d l)
  | |- context [match group_loop ?g ?l with _ => _ end] =>
      split_on (group_loop g l)
  | |- context [match first_match ?d ?l with _ => _ end] =>
      split_on (first_match d l)
  | |- context [truthy ?v] => split_on (truthy v)
  | |- context [match subscript ?v ?k with _ => _ end] => split_on (subscript v k)
  | |- context [match get_method ?v ?k ?d with _ => _ end] =>
      split_on (get_method v k d)
  | |- context [match items_method ?v with _ => _ end] =>
      split_on (items_method v)
  end.

(** Runs a method against a callback that accepts every event. *)
Ltac run_quiet Hem requests :=
  repeat first [ rewrite emit_never_raises by exact Hem
               | rewrite for_each_emit_quiet by exact Hem
               | progress cbn [fst snd self emitted sent negb]
               | split_body requests ].

Ltac unfold_methods :=
  unfold getEntitiesByDomain, getAllEntities, controlEntity,
    getAvailableServicesForDomain, getAttributesForEntity, setEntityAttribute;
  unfold getEntitiesByDomain_try, getEntitiesByDomain_except,
    getAllEntities_try, getAllEntities_except,
    controlEntity_try, setEntityAttribute_try, command_except,
    getAvailableServicesForDomain_try, getAvailableServicesForDomain_except,
    getAttributesForEntity_try, getAttributesForEntity_except;
  unfold try_except, bind, get_valves, perform, lift, thrown, cache_setitem,
    cache_assign, ret.

(** X9.  Every call hands the HTTP layer at most one request, the one of its
    operation; with a callback that accepts the events it hands over
    exactly that one, and with the default callback [None] it hands over
    none. *)
Theorem one_request_per_call (requests : http) (em : emitter) (c : call)
        (st : state) :
  (sent (invoke requests em c st) = sent st \/
   sent (invoke requests em c st) = sent st ++ [request_of st c]) /\
  (never_raises em ->
   sent (invoke requests em c st) = sent st ++ [request_of st c]) /\
  (em = None -> sent (invoke requests em c st) = sent st).
Proof.
  split; [|split].
  - destruct c; cbn [invoke request_of];
      try apply (proj2 (getAllEntities_state requests em st));
      unfold_methods; unfold emit, states_request, url_states, services_request,
        state_request, command_request, url_service, json_loads, json_dumps;
      (destruct em as [f|]; cbn [fst snd self emitted sent]; [|now left]);
      split_paths f requests; auto.
  - intros Hem.
    destruct c; cbn [invoke request_of]; unfold_methods;
      unfold states_request, url_states, services_request,
        state_request, command_request, url_service, json_loads, json_dumps;
      run_quiet Hem requests; reflexivity.
  - intros ->. destruct c; reflexivity.
Qed.

Lemma one_request_per_call_witness :
  never_raises quiet /\
  sent (invoke unreachable quiet (ControlEntity "light.a" "light" "turn_on") fresh) =
  [Post "http://ha.local:8123/api/services/light/turn_on"
        (json_dumps (PDict [("entity_id", PStr "light.a")]))
        [("Authorization", "Bearer token");
         ("Content-Type", "application/json")]].
Proof.
  assert (Hq : never_raises quiet) by (exists (fun _ _ => None); auto).
  split; [exact Hq|].
  apply (proj1 (proj2 (one_request_per_call unreachable quiet
                         (ControlEntity "light.a" "light" "turn_on") fresh)) Hq).
Defined.

(** ** A hub that cannot be reached *)

(** Runs a method whose request raises, as [Hreq] says, against a callback
    that accepts every event. *)
Ltac run_unreachable Hem Hreq :=
  repeat match goal with b := _ |- _ => subst b end;
  unfold_methods;
  unfold states_request, url_states, services_request, state_request,
    command_request, url_service in *;
  repeat first [ rewrite emit_never_raises by exact Hem
               | rewrite Hreq
               | progress cbn [fst snd self emitted sent] ];
  unfold after, command_opening, command_failed, command_error, url_service;
  cbn [self emitted sent]; rewrite <- ?app_assoc; cbn [app]; reflexivity.

(** X10.  When the HTTP layer raises (no route, refused connection, timeout), and
    the callback accepts the events, every operation still returns: the two
    discoveries, the service list and the state query give their error or
    empty value, the two commands a record with [success] false and the
    exception text; each emits its opening events and one closing status
    with the exception text, and the object is untouched. *)
Theorem unreachable_hub (requests : http) (em : emitter) (st : state) (e : exn) :
  never_raises em ->
  (forall dom,
      requests (states_request st) = Raise e ->
      getEntitiesByDomain requests dom em st =
      (Ret (Errors [[Lit ("An error occurred: " ++ exn_str e)]]),
       after st
         [Status [Lit ("Querying entities in domain '" ++ dom ++ "'")] false;
          Status [Lit ("Exception occurred: " ++ exn_str e)] true]
         (states_request st))) /\
  (requests (states_request st) = Raise e ->
   getAllEntities requests em st =
   (Ret [],
    after st
      [Status [Lit "Querying all entities"] false;
       Status [Lit ("Exception occurred: " ++ exn_str e)] true]
      (states_request st))) /\
  (forall entityID dom service,
      let body := PDict [("entity_id", PStr entityID)] in
      requests (command_request st dom service body) = Raise e ->
      controlEntity requests entityID dom service em st =
      (Ret (command_error e),
       after st
         (command_opening entityID dom service st body ++ [command_failed e])
         (command_request st dom service body))) /\
  (forall dom,
      requests (services_request st) = Raise e ->
      getAvailableServicesForDomain requests dom em st =
      (Ret (PList []),
       after st
         [Status [Lit ("Fetching available services for domain '" ++ dom ++ "'")]
                 false;
          command_failed e]
         (services_request st))) /\
  (forall entity_id,
      requests (state_request st entity_id) = Raise e ->
      getAttributesForEntity requests entity_id em st =
      (Ret [("error", PStr (exn_str e))],
       after st
         [Status [Lit ("Querying current state of `" ++ entity_id ++ "`")] false;
          command_failed e]
         (state_request st entity_id))) /\
  (forall entity_id dom service data,
      let body := PDict (payload_dict entity_id data) in
      requests (command_request st dom service body) = Raise e ->
      setEntityAttribute requests entity_id dom service data em st =
      (Ret (command_error e),
       after st
         [Status [Lit ("Sending `" ++ service ++ "` with data to `" ++ entity_id
                       ++ "`")] false;
          Message (request_details (url_service st dom service) (json_dumps body));
          command_failed e]
         (command_request st dom service body))).
Proof.
  intros Hem. repeat split; intros; cbv zeta in *.
  all: match goal with Hreq : _ = Raise _ |- _ =>
         run_unreachable Hem Hreq
       end.
Qed.

Lemma unreachable_hub_witness :
  never_raises quiet /\
  fst (controlEntity unreachable "light.a" "light" "turn_on" quiet fresh) =
  Ret (json_dumps (PDict [("success", PBool false);
                          ("error", PStr "Connection refused")])) /\
  fst (getEntitiesByDomain unreachable "light" quiet fresh) =
  Ret (Errors [[Lit "An error occurred: Connection refused"]]).
Proof.
  assert (Hq : never_raises quiet) by (exists (fun _ _ => None); auto).
  destruct (unreachable_hub unreachable quiet fresh
              (mkExn RequestException "Connection refused") Hq)
    as (Hdomain & _ & Hcontrol & _).
  split; [exact Hq|]. split.
  - now rewrite (Hcontrol "light.a" "light" "turn_on" eq_refl).
  - now rewrite (Hdomain "light" eq_refl).
Defined.

(** ** Commands and the callback *)



(** ** The payload of [setEntityAttribute] *)

Lemma dict_keys_update (V : Type) (extra : pydict V) :
  NoDup (dict_keys extra) ->
  forall base,
    dict_keys (dict_update base extra) =
    dict_keys base ++ filter (fun k => negb (dict_has k base)) (dict_keys extra).
Proof.
  unfold dict_update.
  induction extra as [|[k1 v1] rest IH]; intros Hnd base; cbn [fold_left fst snd].
  - cbn. now rewrite app_nil_r.
  - change (dict_keys ((k1, v1) :: rest)) with (k1 :: dict_keys rest) in *.
    inversion Hnd as [|? ? Hnotin Hnd']; subst.
    rewrite IH by exact Hnd'. cbn [filter].
    assert (Hfilter :
      filter (fun k => negb (dict_has k (dict_set k1 v1 base))) (dict_keys rest) =
      filter (fun k => negb (dict_has k base)) (dict_keys rest)).
    { apply filter_ext_in. intros k Hk. unfold dict_has.
      rewrite dict_get_set_other; [reflexivity|].
      intros ->. contradiction. }
    rewrite Hfilter. unfold dict_has at 2.
    destruct (dict_get k1 base) as [v0|] eqn:E; cbn [negb].
    + now rewrite dict_keys_set_present with (v0 := v0).
    + rewrite dict_set_absent by exact E.
      unfold dict_keys at 1. rewrite map_app, <- app_assoc. reflexivity.
Qed.

(** X12.  In the body [setEntityAttribute] posts, [entity_id] is always the first
    key, also when its value comes from [data]; the other keys of [data]
    follow in the order of [data]. *)
Theorem payload_dict_key_order (entity_id : string) (data : pydict pyval) :
  NoDup (dict_keys data) ->
  dict_keys (payload_dict entity_id data) =
  "entity_id" :: filter (fun k => negb (String.eqb k "entity_id")) (dict_keys data).
Proof.
  intros Hnd. unfold payload_dict. rewrite dict_keys_update by exact Hnd.
  cbn [dict_keys map fst app]. f_equal.
  apply filter_ext. intros k. unfold dict_has. cbn [dict_get].
  now destruct (String.eqb k "entity_id").
Qed.

Lemma payload_dict_key_order_witness :
  let data := [("brightness_pct", PInt 40); ("entity_id", PStr "light.z");
               ("transition", PInt 2)] in
  NoDup (dict_keys data) /\
  dict_keys (payload_dict "light.a" data) =
  ["entity_id"; "brightness_pct"; "transition"].
Proof.
  intros data.
  assert (Hnd : NoDup (dict_keys data)).
  { cbn. repeat constructor; cbn; intuition discriminate. }
  split; [exact Hnd|].
  now rewrite (payload_dict_key_order "light.a" data Hnd).
Defined.

(** ** The service list, when the lookup fails *)

(** X13.  A hub answer that is not 200, a record without [domain] met before any
    match, and a matching record without [services] all make
    [getAvailableServicesForDomain] return the empty list; unlike the
    answer that simply has no record for the domain, each of them ends
    with a closing status that carries the code or the missing key. *)
Theorem getAvailableServicesForDomain_failures (requests : http) (dom : string)
        (em : emitter) (st : state) (response : Response) :
  never_raises em ->
  requests (services_request st) = Ret response ->
  let opening :=
    Status [Lit ("Fetching available services for domain '" ++ dom ++ "'")]
           false in
  (status_code response <> 200%Z ->
   getAvailableServicesForDomain requests dom em st =
   (Ret (PList []),
    after st
      [opening; Status [Lit "Error: "; StrOf (PInt (status_code response))] true]
      (services_request st))) /\
  (forall pre d post,
      status_code response = 200%Z ->
      response_json response = Ret (PList (pre ++ PDict d :: post)) ->
      Forall (other_domain dom) pre ->
      dict_get "domain" d = None ->
      getAvailableServicesForDomain requests dom em st =
      (Ret (PList []),
       after st [opening; command_failed (mkExn KeyError "'domain'")]
             (services_request st))) /\
  (forall pre d post,
      status_code response = 200%Z ->
      response_json response = Ret (PList (pre ++ PDict d :: post)) ->
      Forall (other_domain dom) pre ->
      dict_get "domain" d = Some (PStr dom) ->
      dict_get "services" d = None ->
      getAvailableServicesForDomain requests dom em st =
      (Ret (PList []),
       after st [opening; command_failed (mkExn KeyError "'services'")]
             (services_request st))).
Proof.
  intros Hem Hreq opening. subst opening.
  unfold services_request in Hreq.
  split; [|split].
  - intros Hcode. apply Z.eqb_neq in Hcode.
    unfold_methods. rewrite emit_never_raises by exact Hem.
    cbn [fst snd self emitted sent]. rewrite Hreq, Hcode. cbn [negb].
    rewrite emit_never_raises by exact Hem.
    unfold after, services_request. cbn [self emitted sent].
    now rewrite <- app_assoc.
  - intros pre d post Hcode Hjson Hpre Hd.
    unfold_methods. rewrite emit_never_raises by exact Hem.
    cbn [fst snd self emitted sent]. rewrite Hreq, Hcode, Hjson.
    cbn [Z.eqb Pos.eqb negb iterate]. cbv beta iota.
    rewrite first_match_skips by exact Hpre.
    cbn [first_match subscript]. rewrite Hd. cbn [obind]. cbv beta iota.
    rewrite emit_never_raises by exact Hem.
    unfold after, services_request, command_failed. cbn [self emitted sent exn_str].
    now rewrite <- app_assoc.
  - intros pre d post Hcode Hjson Hpre Hd Hs.
    unfold_methods. rewrite emit_never_raises by exact Hem.
    cbn [fst snd self emitted sent]. rewrite Hreq, Hcode, Hjson.
    cbn [Z.eqb Pos.eqb negb iterate]. cbv beta iota.
    rewrite first_match_found by assumption.
    assert (Htruthy : truthy (PDict d) = true).
    { cbn. destruct d; [discriminate Hd|reflexivity]. }
    rewrite Htruthy. cbn [negb subscript]. rewrite Hs. cbv beta iota.
    rewrite emit_never_raises by exact Hem.
    unfold after, services_request, command_failed. cbn [self emitted sent exn_str].
    now rewrite <- app_assoc.
Qed.

Lemma getAvailableServicesForDomain_failures_witness :
  let listing := PList [PDict [("services", PDict [])];
                        PDict [("domain", PStr "light"); ("services", PDict [])]] in
  never_raises quiet /\
  emitted (snd (getAvailableServicesForDomain (replies 200 "" listing) "light"
                                              quiet fresh)) =
  [Status [Lit "Fetching available services for domain 'light'"] false;
   Status [Lit "Error occurred: 'domain'"] true].
Proof.
  intros listing.
  assert (Hq : never_raises quiet) by (exists (fun _ _ => None); auto).
  split; [exact Hq|].
  destruct (getAvailableServicesForDomain_failures
              (replies 200 "" listing) "light" quiet fresh
              (mkResponse 200 "" (Ret listing)) Hq eq_refl) as (_ & Hkey & _).
  now rewrite (Hkey [] [("services", PDict [])]
                 [PDict [("domain", PStr "light"); ("services", PDict [])]]
                 eq_refl eq_refl (Forall_nil _) eq_refl).
Defined.

(** ** The state query, forwards *)

(** X14.  On a 200 answer whose body is a mapping, with [attributes] absent or a
    mapping, and a callback that accepts the events, [getAttributesForEntity]
    returns the state and the attributes, after the opening status, one
    summary with a bullet per attribute in the order of the body, and the
    closing status; nothing is cached. *)
Theorem getAttributesForEntity_complete (requests : http) (entity_id : string)
        (em : emitter) (st : state) (response : Response)
        (d items : pydict pyval) :
  never_raises em ->
  requests (state_request st entity_id) = Ret response ->
  status_code response = 200%Z ->
  response_json response = Ret (PDict d) ->
  match dict_get "attributes" d with Some a => a | None => PDict [] end =
  PDict items ->
  let state := match dict_get "state" d with Some x => x | None => PNone end in
  getAttributesForEntity requests entity_id em st =
  (Ret [("state", state); ("attributes", PDict items)],
   after st
     [Status [Lit ("Querying current state of `" ++ entity_id ++ "`")] false;
      attribute_summary entity_id state items;
      Status [Lit "Attribute query complete"] true]
     (state_request st entity_id)).
Proof.
  intros Hem Hreq Hcode Hjson Hattrs state. subst state.
  unfold state_request in Hreq.
  unfold_methods. rewrite emit_never_raises by exact Hem.
  cbn [fst snd self emitted sent]. rewrite Hreq, Hcode, Hjson.
  cbn [Z.eqb Pos.eqb negb get_method]. cbv beta iota.
  rewrite Hattrs. cbn [items_method].
  rewrite emit_never_raises by exact Hem.
  rewrite emit_never_raises by exact Hem.
  unfold after, state_request, attribute_summary. cbn [self emitted sent].
  now rewrite <- !app_assoc.
Qed.

Lemma getAttributesForEntity_complete_witness :
  let body := PDict [("entity_id", PStr "light.a"); ("state", PStr "on");
                     ("attributes", PDict [("brightness", PInt 180);
                                           ("friendly_name", PStr "A")])] in
  never_raises quiet /\
  fst (getAttributesForEntity (replies 200 "" body) "light.a" quiet fresh) =
  Ret [("state", PStr "on");
       ("attributes", PDict [("brightness", PInt 180);
                             ("friendly_name", PStr "A")])].
Proof.
  intros body.
  assert (Hq : never_raises quiet) by (exists (fun _ _ => None); auto).
  split; [exact Hq|].
  pose proof (getAttributesForEntity_complete
                (replies 200 "" body) "light.a" quiet fresh
                (mkResponse 200 "" (Ret body)) _
                [("brightness", PInt 180); ("friendly_name", PStr "A")]
                Hq eq_refl eq_refl eq_refl eq_refl) as Hrun.
  exact (f_equal fst Hrun).
Defined.

(** X15.  A 200 answer that [getAttributesForEntity] cannot read is answered in
    band: a body that is not a mapping, or [attributes] that is present but
    is not a mapping ([null] included), gives a record with the single key
    [error] naming the missing method, after a closing status with the
    same text. *)
Theorem getAttributesForEntity_unreadable (requests : http) (entity_id : string)
        (em : emitter) (st : state) (response : Response) (body : pyval) :
  never_raises em ->
  requests (state_request st entity_id) = Ret response ->
  status_code response = 200%Z ->
  response_json response = Ret body ->
  let opening :=
    Status [Lit ("Querying current state of `" ++ entity_id ++ "`")] false in
  let missing v name :=
    mkExn AttributeError
          ("'" ++ type_name v ++ "' object has no attribute '" ++ name ++ "'") in
  ((forall d, body <> PDict d) ->
   getAttributesForEntity requests entity_id em st =
   (Ret [("error", PStr (exn_str (missing body "get")))],
    after st [opening; command_failed (missing body "get")]
          (state_request st entity_id))) /\
  (forall d a,
      body = PDict d ->
      dict_get "attributes" d = Some a ->
      (forall items, a <> PDict items) ->
      getAttributesForEntity requests entity_id em st =
      (Ret [("error", PStr (exn_str (missing a "items")))],
       after st [opening; command_failed (missing a "items")]
             (state_request st entity_id))).
Proof.
  intros Hem Hreq Hcode Hjson opening missing. subst opening missing.
  unfold state_request in Hreq.
  split.
  - intros Hbody.
    unfold_methods. rewrite emit_never_raises by exact Hem.
    cbn [fst snd self emitted sent]. rewrite Hreq, Hcode, Hjson.
    cbn [Z.eqb Pos.eqb negb]. cbv beta iota.
    destruct body; try (now destruct (Hbody d));
      cbn [get_method no_attribute type_name]; cbv beta iota;
      rewrite emit_never_raises by exact Hem;
      unfold after, state_request, command_failed;
      cbn [self emitted sent exn_str]; now rewrite <- app_assoc.
  - intros d a -> Hattrs Ha.
    unfold_methods. rewrite emit_never_raises by exact Hem.
    cbn [fst snd self emitted sent]. rewrite Hreq, Hcode, Hjson.
    cbn [Z.eqb Pos.eqb negb get_method]. cbv beta iota. rewrite Hattrs.
    destruct a; try (now destruct (Ha d0));
      cbn [items_method no_attribute type_name]; cbv beta iota;
      rewrite emit_never_raises by exact Hem;
      unfold after, state_request, command_failed;
      cbn [self emitted sent exn_str]; now rewrite <- app_assoc.
Qed.

Lemma getAttributesForEntity_unreadable_witness :
  let body := PDict [("state", PStr "on"); ("attributes", PNone)] in
  never_raises quiet /\
  fst (getAttributesForEntity (replies 200 "" body) "light.a" quiet fresh) =
  Ret [("error", PStr "'NoneType' object has no attribute 'items'")].
Proof.
  intros body.
  assert (Hq : never_raises quiet) by (exists (fun _ _ => None); auto).
  split; [exact Hq|].
  destruct (getAttributesForEntity_unreadable
              (replies 200 "" body) "light.a" quiet fresh
              (mkResponse 200 "" (Ret body)) body Hq eq_refl eq_refl eq_refl)
    as [_ Hattrs].
  pose proof (Hattrs [("state", PStr "on"); ("attributes", PNone)] PNone
                     eq_refl eq_refl ltac:(discriminate)) as Hrun.
  exact (f_equal fst Hrun).
Defined.

(** ** The narration of a call *)

Lemma closes_one (d : text) : closes [Status d true].
Proof. exists [], d. reflexivity. Qed.

Lemma closes_cons (ev : event) (evs : list event) : closes evs -> closes (ev :: evs).
Proof. intros (pre & d & ->). exists (ev :: pre), d. reflexivity. Qed.

Lemma closes_app (evs evs' : list event) : closes evs' -> closes (evs ++ evs').
Proof. intros (pre & d & ->). exists (evs ++ pre), d. now rewrite app_assoc. Qed.

Ltac close_narration :=
  repeat first [ apply closes_one | apply closes_cons | apply closes_app ].

(** X16.  With a callback that accepts the events, the events of a call start
    with a status that is not done and end with a status that is done,
    whatever the hub answers and whether the body returns or raises; the
    one exception is [getAvailableServicesForDomain] finding no record for
    the domain, which ends on its message and never emits a done status. *)
Theorem narration_is_closed (requests : http) (em : emitter) (c : call)
        (st : state) :
  never_raises em ->
  exists evs,
    emitted (invoke requests em c st) = emitted st ++ evs /\
    (narrates evs \/
     exists dom,
       c = GetAvailableServicesForDomain dom /\
       evs = [Status [Lit ("Fetching available services for domain '" ++ dom
                           ++ "'")] false;
              Message [Lit ("No services found for domain `" ++ dom ++ "`")]]).
Proof.
  intros Hem.
  destruct c; cbn [invoke]; unfold_methods; unfold json_loads, json_dumps;
    run_quiet Hem requests;
    rewrite <- ?app_assoc; cbn [app];
    (eexists; split; [reflexivity|]);
    first [ left; eexists _, _; split; [reflexivity|]; solve [close_narration]
          | right; eexists; split; reflexivity ].
Qed.

Lemma narration_is_closed_witness :
  never_raises quiet /\
  exists evs,
    emitted (invoke (replies 500 "" PNone) quiet GetAllEntities fresh) = evs /\
    narrates evs.
Proof.
  assert (Hq : never_raises quiet) by (exists (fun _ _ => None); auto).
  split; [exact Hq|].
  destruct (narration_is_closed (replies 500 "" PNone) quiet GetAllEntities
                                fresh Hq)
    as (evs & Hevs & [Hn|(dom & Hc & _)]); [|discriminate Hc].
  exists evs. split; [exact Hevs|exact Hn].
Defined.

(** ** Bodies that cannot be reshaped *)

(** X5.  A 200 answer whose body cannot be decoded, iterated or reshaped (no
    JSON, [null], a kept state without [attributes], a state without
    [entity_id]) makes [getEntitiesByDomain] return a list holding one error
    string with the exception text, after a closing status with the same
    text; the object is untouched. *)
Theorem getEntitiesByDomain_unreadable (requests : http) (dom : string)
        (em : emitter) (st : state) (response : Response) (e : exn) :
  never_raises em ->
  requests (states_request st) = Ret response ->
  status_code response = 200%Z ->
  reshaped_for dom response = Raise e ->
  getEntitiesByDomain requests dom em st =
  (Ret (Errors [[Lit ("An error occurred: " ++ exn_str e)]]),
   after st
     [Status [Lit ("Querying entities in domain '" ++ dom ++ "'")] false;
      Status [Lit ("Exception occurred: " ++ exn_str e)] true]
     (states_request st)).
Proof.
  intros Hem Hreq Hcode Hbody.
  unfold states_request, url_states in Hreq. unfold reshaped_for in Hbody.
  unfold_methods. rewrite emit_never_raises by exact Hem.
  cbn [fst snd self emitted sent]. rewrite Hreq, Hcode.
  cbn [Z.eqb Pos.eqb negb].
  destruct (response_json response) as [all_states|e1]; cbn [obind] in Hbody.
  - destruct (iterate all_states) as [items|e2]; cbn [obind] in Hbody.
    + rewrite Hbody. rewrite emit_never_raises by exact Hem.
      unfold after, states_request, url_states. cbn [self emitted sent].
      now rewrite <- app_assoc.
    + inversion Hbody; subst e2. rewrite emit_never_raises by exact Hem.
      unfold after, states_request, url_states. cbn [self emitted sent].
      now rewrite <- app_assoc.
  - inversion Hbody; subst e1. rewrite emit_never_raises by exact Hem.
    unfold after, states_request, url_states. cbn [self emitted sent].
    now rewrite <- app_assoc.
Qed.

Lemma getEntitiesByDomain_unreadable_witness :
  never_raises quiet /\
  fst (getEntitiesByDomain (replies 200 "null" PNone) "light" quiet fresh) =
  Ret (Errors [[Lit "An error occurred: 'NoneType' object is not iterable"]]) /\
  fst (getEntitiesByDomain
         (replies 200 "" (PList [bare_state "light.x"])) "light" quiet fresh) =
  Ret (Errors [[Lit "An error occurred: 'attributes'"]]).
Proof.
  assert (Hq : never_raises quiet) by (exists (fun _ _ => None); auto).
  split; [exact Hq|]. split.
  - exact (f_equal fst
             (getEntitiesByDomain_unreadable
                (replies 200 "null" PNone) "light" quiet fresh
                (mkResponse 200 "null" (Ret PNone))
                (mkExn TypeError "'NoneType' object is not iterable")
                Hq eq_refl eq_refl eq_refl)).
  - exact (f_equal fst
             (getEntitiesByDomain_unreadable
                (replies 200 "" (PList [bare_state "light.x"])) "light" quiet fresh
                (mkResponse 200 "" (Ret (PList [bare_state "light.x"])))
                (mkExn KeyError "'attributes'")
                Hq eq_refl eq_refl eq_refl)).
Defined.

(** ** What a call does to the object *)

Lemma dict_set_twice (V : Type) (k : string) (v : V) (d : pydict V) :
  dict_set k v (dict_set k v d) = dict_set k v d.
Proof.
  induction d as [|[k' v'] d IH]; cbn [dict_set].
  - now rewrite String.eqb_refl.
  - destruct (String.eqb k k') eqn:E; cbn [dict_set]; rewrite E; congruence.
Qed.

Lemma invoke_refreshes (requests : http) (em : emitter) (c : call) (st : state) :
  never_raises em ->
  self (invoke requests em c st) = refreshed requests c (self st).
Proof.
  intros Hem.
  destruct c; cbn [invoke refreshed];
    try (first [ apply controlEntity_same_self
               | apply getAvailableServicesForDomain_same_self
               | apply getAttributesForEntity_same_self
               | apply setEntityAttribute_same_self ]);
    unfold reshaped_for, reshaped_all; unfold_methods;
    run_quiet Hem requests; cbn [obind];
    repeat (match goal with
            | H : iterate _ = _ |- _ => rewrite H
            | H : comprehension _ _ = _ |- _ => rewrite H
            | H : group_loop _ _ = _ |- _ => rewrite H
            end; cbn [obind]);
    reflexivity.
Qed.

(** X17.  With a callback that accepts the events, what a call leaves in the
    object depends on the object, the call and the hub only, not on what
    was emitted or sent before; and making the same call again against the
    same hub leaves the object as the first call left it. *)
Theorem repeated_call_changes_nothing (requests : http) (em em' : emitter)
        (c : call) (st : state) :
  never_raises em ->
  never_raises em' ->
  self (invoke requests em c st) = refreshed requests c (self st) /\
  self (invoke requests em' c (invoke requests em c st)) =
  self (invoke requests em c st).
Proof.
  intros Hem Hem'. split; [now apply invoke_refreshes|].
  rewrite !invoke_refreshes by assumption.
  generalize (self st). intros t.
  destruct c; cbn [refreshed]; try reflexivity.
  - destruct (requests (Get (ha_url (valves t) ++ "/api/states")
                            (auth_headers (valves t))))
      as [response|e] eqn:Hreq; [|now rewrite Hreq].
    destruct (status_code response =? 200)%Z eqn:Hcode; [|now rewrite Hreq, Hcode].
    destruct (reshaped_for dom response) as [ents|e] eqn:Hbody;
      [|now rewrite Hreq, Hcode, Hbody].
    cbn [with_cache valves entity_cache citation].
    rewrite Hreq, Hcode, Hbody. unfold with_cache.
    cbn [valves entity_cache citation]. now rewrite dict_set_twice.
  - destruct (requests (Get (ha_url (valves t) ++ "/api/states")
                            (auth_headers (valves t))))
      as [response|e] eqn:Hreq; [|now rewrite Hreq].
    destruct (status_code response =? 200)%Z eqn:Hcode; [|now rewrite Hreq, Hcode].
    destruct (reshaped_all response) as [grouped|e] eqn:Hbody;
      [|now rewrite Hreq, Hcode, Hbody].
    cbn [with_cache valves entity_cache citation].
    now rewrite Hreq, Hcode, Hbody.
Qed.

Lemma repeated_call_changes_nothing_witness :
  let hub := replies 200 "" two_states in
  let once := invoke hub quiet (GetEntitiesByDomain "light") fresh in
  never_raises quiet /\
  entity_cache (self once) =
  [("light", [mkEntity (PStr "light.a") (PStr "A") "light"])] /\
  self (invoke hub quiet (GetEntitiesByDomain "light") once) = self once.
Proof.
  intros hub once.
  assert (Hq : never_raises quiet) by (exists (fun _ _ => None); auto).
  split; [exact Hq|]. split; [reflexivity|].
  apply (proj2 (repeated_call_changes_nothing hub quiet quiet
                  (GetEntitiesByDomain "light") fresh Hq Hq)).
Defined.
